(** * Temperature Reader: a shallow embedding of [temperature_reader.py]

    The program is a Tkinter application with one class, [TemperatureReader].
    Its methods are embedded as computations over an explicit [world]
    (the fields of the application object, the label widget, the pending
    [after] timers, the message boxes shown, the standard output and the
    file system), in a small state-and-exception monad.  The Python
    built-ins the methods call ([readlines], [str.strip], [str.split],
    [float], the format specification [.2f]) are embedded as executable
    functions on strings and on IEEE 754 binary64 values.

    What the embedding takes for granted: a command of the event loop runs
    to its end before the next one starts (Tk's loop is single-threaded);
    [print] and the message boxes do not raise; and whatever [open],
    [readlines] and [float] raise is an instance of [Exception]. *)

From Stdlib Require Import ZArith NArith List String Ascii Bool Lia.
From Stdlib Require Import Floats.SpecFloat.
From Stdlib Require Import Numbers.DecimalString Numbers.DecimalN.
Import ListNotations.

Open Scope string_scope.
Open Scope Z_scope.

(** ** Characters and Python string primitives

    Text is a sequence of code points below 256, held in [string]. *)

Module PyStr.

Definition code (c : ascii) : N := N_of_ascii c.

Definition in_range (lo hi : N) (c : ascii) : bool :=
  ((lo <=? code c) && (code c <=? hi))%N.

(** [str.isspace] on one character ([Py_UNICODE_ISSPACE]): the code points
    below 256 that Python's [str.strip()] removes. *)
Definition isspace (c : ascii) : bool :=
  in_range 9 13 c || in_range 28 32 c
  || (code c =? 133)%N || (code c =? 160)%N.

(** [Py_ISSPACE]: the C-locale white space, used inside [float()]. *)
Definition c_isspace (c : ascii) : bool :=
  in_range 9 13 c || (code c =? 32)%N.

Definition isdigit (c : ascii) : bool := in_range 48 57 c.

Definition tolower (c : ascii) : ascii :=
  if in_range 65 90 c then ascii_of_N (code c + 32) else c.

Definition is_empty (s : string) : bool :=
  match s with EmptyString => true | String _ _ => false end.

Section Strip.
Variable sp : ascii -> bool.

Fixpoint lstrip_by (s : string) : string :=
  match s with
  | EmptyString => EmptyString
  | String c r => if sp c then lstrip_by r else s
  end.

Fixpoint rstrip_by (s : string) : string :=
  match s with
  | EmptyString => EmptyString
  | String c r =>
      match rstrip_by r with
      | EmptyString => if sp c then EmptyString else String c EmptyString
      | r' => String c r'
      end
  end.

Definition strip_by (s : string) : string := rstrip_by (lstrip_by s).
End Strip.

(** [s.strip()] *)
Definition strip (s : string) : string := strip_by isspace s.

(** [s.split(sep)] for a one-character separator: never the empty list. *)
Fixpoint split (sep : ascii) (s : string) : list string :=
  match s with
  | EmptyString => [EmptyString]
  | String c r =>
      if Ascii.eqb c sep then EmptyString :: split sep r
      else match split sep r with
           | [] => [String c EmptyString]
           | p :: ps => String c p :: ps
           end
  end.

Definition LF : ascii := ascii_of_N 10.
Definition CR : ascii := ascii_of_N 13.

(** Text-mode reading with the default [newline=None]: a carriage return,
    alone or followed by a line feed, is read as one line feed. *)
Fixpoint universal_newlines (s : string) : string :=
  match s with
  | EmptyString => EmptyString
  | String c r =>
      if Ascii.eqb c CR then
        match r with
        | String d r' =>
            if Ascii.eqb d LF then String LF (universal_newlines r')
            else String LF (universal_newlines r)
        | EmptyString => String LF EmptyString
        end
      else String c (universal_newlines r)
  end.

(** The lines of a text, each with its line feed kept; the last one has none
    when the text does not end in a line feed. *)
Fixpoint lines_keepends (s : string) : list string :=
  match s with
  | EmptyString => []
  | String c r =>
      if Ascii.eqb c LF then String c EmptyString :: lines_keepends r
      else match lines_keepends r with
           | [] => [String c EmptyString]
           | l :: ls => String c l :: ls
           end
  end.

(** [f.readlines()] on a file opened with [open(file, 'r')]. *)
Definition readlines (content : string) : list string :=
  lines_keepends (universal_newlines content).

(** [span_digits s]: the longest prefix of decimal digits, and the rest. *)
Fixpoint span_digits (s : string) : string * string :=
  match s with
  | EmptyString => (EmptyString, EmptyString)
  | String c r =>
      if isdigit c then
        let (d, t) := span_digits r in (String c d, t)
      else (EmptyString, s)
  end.

Definition digit_value (c : ascii) : Z := Z.of_N (code c) - 48.

Fixpoint digits_value (acc : Z) (d : string) : Z :=
  match d with
  | EmptyString => acc
  | String c r => digits_value (10 * acc + digit_value c) r
  end.

Fixpoint lower (s : string) : string :=
  match s with
  | EmptyString => EmptyString
  | String c r => String (tolower c) (lower r)
  end.

End PyStr.

(** ** Python floats: [float(str)] and the format specification [.2f]

    A Python float is an IEEE 754 binary64 value, here a [spec_float] with
    precision 53 and exponent bound 1024 (NaN carries no sign or payload). *)

Module PyFloat.
Import PyStr.

Definition float : Type := spec_float.

Definition prec : Z := 53.
Definition emax : Z := 1024.

(** The binary64 value nearest to [(-1)^neg * m * 10^e], ties to even, for
    [0 <= m]: the result of a correctly rounded string-to-double conversion
    (CPython's [_Py_dg_strtod]).  Too large a magnitude gives an infinity,
    too small a zero, of the same sign. *)
Definition of_decimal (neg : bool) (m e : Z) : float :=
  if m =? 0 then S754_zero neg
  else if 0 <=? e then
    match m * 10 ^ e with
    | Zpos p => binary_round prec emax neg p 0
    | _ => S754_zero neg
    end
  else
    let '(q, eq, loc) := SFdiv_core_binary prec emax m 0 (10 ^ (- e)) 0 in
    binary_round_aux prec emax neg q eq loc.

(** [_PyUnicode_TransformDecimalAndSpaceToASCII] on code points below 256:
    a non-ASCII space becomes a blank, any other character from 127 up
    becomes a question mark (no decimal digit lives in that range).  The C
    function also cuts the string after the first question mark it writes;
    a string with a question mark in it is no float either way. *)
Definition to_ascii_char (c : ascii) : ascii :=
  if (code c <? 127)%N then c
  else if isspace c then " "%char else "?"%char.

Fixpoint to_ascii (s : string) : string :=
  match s with
  | EmptyString => EmptyString
  | String c r => String (to_ascii_char c) (to_ascii r)
  end.

(** [_Py_string_to_number_with_underscores]: an underscore is dropped when it
    stands between two digits and is an error anywhere else. *)
Fixpoint drop_underscores (prev : ascii) (s : string) : option string :=
  match s with
  | EmptyString => if Ascii.eqb prev "_" then None else Some EmptyString
  | String c r =>
      if Ascii.eqb c "_" then
        if isdigit prev then drop_underscores c r else None
      else if Ascii.eqb prev "_" && negb (isdigit c) then None
      else option_map (String c) (drop_underscores c r)
  end.

Definition parse_sign (s : string) : bool * string :=
  match s with
  | String "-" r => (true, r)
  | String "+" r => (false, r)
  | _ => (false, s)
  end.

(** The exponent part after the mantissa: nothing, or [e]/[E], an optional
    sign and at least one digit, up to the end of the string. *)
Definition parse_exponent (s : string) : option Z :=
  match s with
  | EmptyString => Some 0
  | String c r =>
      if Ascii.eqb (tolower c) "e" then
        let (eneg, r1) := parse_sign r in
        let (ed, r2) := span_digits r1 in
        if is_empty ed || negb (is_empty r2) then None
        else Some (if eneg then - digits_value 0 ed else digits_value 0 ed)
      else None
  end.

(** [_Py_dg_strtod], accepted only when it consumes the whole string:
    sign, digits with an optional point (at least one digit), exponent. *)
Definition parse_decimal (s : string) : option float :=
  let (neg, s1) := parse_sign s in
  let (ip, s2) := span_digits s1 in
  let (fp, s3) :=
    match s2 with
    | String "." r => span_digits r
    | _ => (EmptyString, s2)
    end in
  if is_empty ip && is_empty fp then None
  else
    match parse_exponent s3 with
    | Some ex =>
        Some (of_decimal neg (digits_value 0 (ip ++ fp))
                         (ex - Z.of_nat (String.length fp)))
    | None => None
    end.

(** [_Py_parse_inf_or_nan], accepted only when it consumes the whole string. *)
Definition parse_inf_or_nan (s : string) : option float :=
  let (neg, s1) := parse_sign s in
  let w := lower s1 in
  if String.eqb w "inf" || String.eqb w "infinity" then Some (S754_infinity neg)
  else if String.eqb w "nan" then Some S754_nan
  else None.

(** [float_from_string_inner]: C white space stripped on both sides, then a
    decimal number or, failing that, an infinity or a NaN. *)
Definition float_from_string_inner (s : string) : option float :=
  let t := strip_by c_isspace s in
  match parse_decimal t with
  | Some x => Some x
  | None => parse_inf_or_nan t
  end.

(** [float(s)] for a [str] argument; [None] stands for [ValueError]. *)
Definition float_of_str (s : string) : option float :=
  match drop_underscores zero (to_ascii s) with
  | Some t => float_from_string_inner t
  | None => None
  end.

(** [n / d] rounded to the nearest integer, ties to even ([0 <= n], [0 < d]). *)
Definition div_half_even (n d : Z) : Z :=
  let q := n / d in
  match 2 * (n mod d) ?= d with
  | Lt => q
  | Gt => q + 1
  | Eq => if Z.even q then q else q + 1
  end.

(** [m * 2^e * 100] rounded to the nearest integer, ties to even. *)
Definition hundredths (m : positive) (e : Z) : Z :=
  if 0 <=? e then Zpos m * 2 ^ e * 100
  else div_half_even (Zpos m * 100) (2 ^ (- e)).

Definition decimal_digits (n : Z) : string :=
  NilZero.string_of_uint (N.to_uint (Z.to_N n)).

Definition fixed2 (neg : bool) (h : Z) : string :=
  (if neg then "-" else "") ++ decimal_digits (h / 100) ++ "."
    ++ decimal_digits (h mod 100 / 10) ++ decimal_digits (h mod 10).

(** [format(x, '.2f')]: the correctly rounded decimal with two digits after
    the point ([PyOS_double_to_string] with format code [f]). *)
Definition format_2f (x : float) : string :=
  match x with
  | S754_nan => "nan"
  | S754_infinity s => if s then "-inf" else "inf"
  | S754_zero s => fixed2 s 0
  | S754_finite s m e => fixed2 s (hundredths m e)
  end.

End PyFloat.

(** ** Exceptions, the world and the monad of the methods *)

Module Py.

(** The exception classes that matter to the [except] clauses of the
    program; all of them derive from [Exception]. *)
Inductive pyclass :=
| Exception
| OSError
| FileNotFoundError
| PermissionError
| IsADirectoryError
| ValueError
| UnicodeDecodeError
| MemoryError
| TclError.

(** [IOError] is an alias of [OSError] in Python 3. *)
Definition IOError : pyclass := OSError.

Definition pyclass_eqb (c d : pyclass) : bool :=
  match c, d with
  | Exception, Exception | OSError, OSError
  | FileNotFoundError, FileNotFoundError
  | PermissionError, PermissionError
  | IsADirectoryError, IsADirectoryError
  | ValueError, ValueError | UnicodeDecodeError, UnicodeDecodeError
  | MemoryError, MemoryError | TclError, TclError => true
  | _, _ => false
  end.

(** The direct base class; [Exception] is the root of the classes here. *)
Definition base (c : pyclass) : pyclass :=
  match c with
  | FileNotFoundError | PermissionError | IsADirectoryError => OSError
  | UnicodeDecodeError => ValueError
  | _ => Exception
  end.

(** [issubclass c d]; no class here is more than two steps below
    [Exception]. *)
Definition issubclass (c d : pyclass) : bool :=
  pyclass_eqb c d || pyclass_eqb (base c) d || pyclass_eqb (base (base c)) d.

(** A raised exception: its class and [str(e)]. *)
Record exn := mkExn { exn_class : pyclass; exn_str : string }.

(** What [open(file, 'r')] followed by [readlines()] does for a path. *)
Inductive file_node :=
| OpenRaises (e : exn)
| ReadRaises (e : exn)
| Contents (text : string).

Inductive icon := ERROR | WARNING.

Record msgbox := mkBox { box_icon : icon; box_title : string; box_message : string }.

(** The only callable the program ever passes to [root.after]. *)
Inductive callback := cb_update_temperature.

(** The fields of the [TemperatureReader] object with the options of its
    label widget and of the root window that the program configures. *)
Record TemperatureReader := mkApp {
  file_path : string;
  update_interval : Z;
  font_size : Z;
  bg_color : string;
  label_text : string;
  label_font : string * Z;
  label_bg : option string;
  root_bg : option string
}.

Record world := mkWorld {
  self : TemperatureReader;
  fs : string -> file_node;
  tk_color : string -> bool;
  stdout : list string;
  boxes : list msgbox;
  clock : Z;
  timers : list (Z * callback)
}.

Inductive result (A : Type) :=
| Ok (a : A)
| Raise (e : exn).
Arguments Ok {A} a.
Arguments Raise {A} e.

Definition M (A : Type) : Type := world -> result A * world.

Definition ret {A} (a : A) : M A := fun w => (Ok a, w).

Definition raise {A} (e : exn) : M A := fun w => (Raise e, w).

Definition bind {A B} (m : M A) (f : A -> M B) : M B :=
  fun w =>
    match m w with
    | (Ok a, w') => f a w'
    | (Raise e, w') => (Raise e, w')
    end.

Notation "x <- m ;; k" := (bind m (fun x => k))
  (at level 61, m at next level, right associativity).
Notation "m ;; k" := (bind m (fun _ => k))
  (at level 61, right associativity).

(** One [except cls as e:] clause. *)
Definition handler (A : Type) : Type := pyclass * (exn -> M A).

(** The first clause whose class the exception is an instance of runs; with
    none the exception goes on to the caller. *)
Fixpoint dispatch {A} (hs : list (handler A)) (e : exn) : M A :=
  match hs with
  | [] => raise e
  | (cls, h) :: hs' =>
      if issubclass (exn_class e) cls then h e else dispatch hs' e
  end.

(** [try: body  except ...:] *)
Definition try_except {A} (body : M A) (hs : list (handler A)) : M A :=
  fun w =>
    match body w with
    | (Ok a, w') => (Ok a, w')
    | (Raise e, w') => dispatch hs e w'
    end.

Definition set_self (a : TemperatureReader) (w : world) : world :=
  mkWorld a (fs w) (tk_color w) (stdout w) (boxes w) (clock w) (timers w).

Definition modify_self (f : TemperatureReader -> TemperatureReader) : M unit :=
  fun w => (Ok tt, set_self (f (self w)) w).

Definition get {A} (f : TemperatureReader -> A) : M A :=
  fun w => (Ok (f (self w)), w).

(** [print(line)]: one more line on the standard output. *)
Definition print (line : string) : M unit :=
  fun w => (Ok tt,
            mkWorld (self w) (fs w) (tk_color w) (stdout w ++ [line])
                    (boxes w) (clock w) (timers w)).

Definition show (i : icon) (title message : string) : M unit :=
  fun w => (Ok tt,
            mkWorld (self w) (fs w) (tk_color w) (stdout w)
                    (boxes w ++ [mkBox i title message]) (clock w) (timers w)).

(** [messagebox.showerror(title, message)] *)
Definition showerror : string -> string -> M unit := show ERROR.

(** [messagebox.showwarning(title, message)] *)
Definition showwarning : string -> string -> M unit := show WARNING.

(** [root.after(ms, cb)]: one more pending timer, due [ms] from now. *)
Definition after (ms : Z) (cb : callback) : M unit :=
  fun w => (Ok tt,
            mkWorld (self w) (fs w) (tk_color w) (stdout w) (boxes w)
                    (clock w) (timers w ++ [(clock w + ms, cb)])).

(** [with open(file, 'r') as f: lines = f.readlines()] *)
Definition open_readlines (file : string) : M (list string) :=
  fun w =>
    match fs w file with
    | OpenRaises e => (Raise e, w)
    | ReadRaises e => (Raise e, w)
    | Contents text => (Ok (PyStr.readlines text), w)
    end.

(** [float(s)] *)
Definition float (s : string) : M PyFloat.float :=
  match PyFloat.float_of_str s with
  | Some x => ret x
  | None => raise (mkExn ValueError ("could not convert string to float: " ++ s))
  end.

End Py.

(** ** The methods of [TemperatureReader] *)

Module App.
Import PyStr Py.

Definition with_file_path (v : string) (a : TemperatureReader) : TemperatureReader :=
  mkApp v (update_interval a) (font_size a) (bg_color a)
        (label_text a) (label_font a) (label_bg a) (root_bg a).

Definition with_font_size (v : Z) (a : TemperatureReader) : TemperatureReader :=
  mkApp (file_path a) (update_interval a) v (bg_color a)
        (label_text a) (label_font a) (label_bg a) (root_bg a).

Definition with_bg_color (v : string) (a : TemperatureReader) : TemperatureReader :=
  mkApp (file_path a) (update_interval a) (font_size a) v
        (label_text a) (label_font a) (label_bg a) (root_bg a).

Definition with_label_text (v : string) (a : TemperatureReader) : TemperatureReader :=
  mkApp (file_path a) (update_interval a) (font_size a) (bg_color a)
        v (label_font a) (label_bg a) (root_bg a).

Definition with_label_font (v : string * Z) (a : TemperatureReader) : TemperatureReader :=
  mkApp (file_path a) (update_interval a) (font_size a) (bg_color a)
        (label_text a) v (label_bg a) (root_bg a).

Definition with_label_bg (v : string) (a : TemperatureReader) : TemperatureReader :=
  mkApp (file_path a) (update_interval a) (font_size a) (bg_color a)
        (label_text a) (label_font a) (Some v) (root_bg a).

Definition with_root_bg (v : string) (a : TemperatureReader) : TemperatureReader :=
  mkApp (file_path a) (update_interval a) (font_size a) (bg_color a)
        (label_text a) (label_font a) (label_bg a) (Some v).

(** [__init__] with [create_widgets]: no path, three minutes, size 10,
    white, and a label showing two dashes. *)
Definition init_self : TemperatureReader :=
  mkApp "" (3 * 60 * 1000) 10 "white" "--" ("Helvetica", 10) None None.

(** The world right after [TemperatureReader(root)], over a given file
    system and a given set of colour names that Tk knows. *)
Definition init (files : string -> file_node) (colors : string -> bool) : world :=
  mkWorld init_self files colors [] [] 0 [].

(** [widget.config(bg=color)]: Tk refuses a colour it does not know. *)
Definition config_bg (set : string -> TemperatureReader -> TemperatureReader)
    (color : string) : M unit :=
  fun w =>
    if tk_color w color then modify_self (set color) w
    else raise (mkExn TclError ("unknown color name " ++ color)) w.

Definition read_latest_temperature (file : string) : M (option PyFloat.float) :=
  try_except
    (lines <- open_readlines file ;;
     let no_valid_lines :=
       print "No valid lines found in the file." ;; ret None in
     match lines with
     | [] => no_valid_lines
     | _ :: _ =>
         let latest_line := strip (last lines "") in
         let parts := split ";" latest_line in
         if (List.length parts =? 3)%nat then
           try_except
             (temperature <- float (nth 2 parts "") ;;
              ret (Some temperature))
             [ (ValueError, fun _ =>
                  print ("Invalid temperature value: " ++ nth 2 parts "") ;;
                  ret None) ]
         else no_valid_lines
     end)
    [ (FileNotFoundError, fun _ => print "File not found." ;; ret None);
      (IOError, fun e => print ("File error: " ++ exn_str e) ;; ret None);
      (Exception, fun e =>
         print ("Unexpected error: " ++ exn_str e) ;; ret None) ].

Definition schedule_update : M unit :=
  ms <- get update_interval ;;
  after ms cb_update_temperature.

Definition update_temperature : M unit :=
  file <- get file_path ;;
  if is_empty file then
    showerror "Error" "Please select a file first"
  else
    latest_temp <- read_latest_temperature file ;;
    match latest_temp with
    | Some t => modify_self (with_label_text (PyFloat.format_2f t))
    | None =>
        modify_self (with_label_text "--") ;;
        showerror "Error" "Failed to read temperature data."
    end ;;
    schedule_update.

(** [select_file], given what [filedialog.askopenfilename] returns (the
    empty string when the dialog is cancelled). *)
Definition select_file (file_selected : string) : M unit :=
  if negb (is_empty file_selected) then
    modify_self (with_file_path file_selected) ;;
    update_temperature
  else ret tt.

(** What the user does in the entry dialog: press OK with an integer typed
    ([Some v]) or with something that is no integer ([None]), or cancel. *)
Inductive entry_action :=
| PressOk (typed : option Z)
| PressCancel.

Definition NL : string := String LF EmptyString.

(** [askinteger(title, prompt, minvalue=minvalue)] of [tkinter.simpledialog]:
    OK on an illegal or too small value shows a warning and leaves the dialog
    open; the dialog returns the first accepted value, or [None] on cancel
    (or when the user does nothing more). *)
Fixpoint askinteger (minvalue : Z) (acts : list entry_action) : M (option Z) :=
  match acts with
  | [] => ret None
  | PressCancel :: _ => ret None
  | PressOk None :: rest =>
      showwarning "Illegal value" ("Not an integer." ++ NL ++ "Please try again") ;;
      askinteger minvalue rest
  | PressOk (Some v) :: rest =>
      if v <? minvalue then
        showwarning "Too small"
          ("The allowed minimum value is "
             ++ NilZero.string_of_int (Z.to_int minvalue)
             ++ ". Please try again.") ;;
        askinteger minvalue rest
      else ret (Some v)
  end.

(** [change_font_size], given what the user does in the dialog. *)
Definition change_font_size (acts : list entry_action) : M unit :=
  new_size <- askinteger 1 acts ;;
  match new_size with
  | Some v =>
      modify_self (with_font_size v) ;;
      size <- get font_size ;;
      modify_self (with_label_font ("Helvetica", size))
  | None => ret tt
  end.

(** [change_bg_color], given what [askstring] returns ([None] on cancel). *)
Definition change_bg_color (color : option string) : M unit :=
  match color with
  | Some c =>
      if negb (is_empty c) then
        modify_self (with_bg_color c) ;;
        bg <- get bg_color ;;
        config_bg with_label_bg bg ;;
        bg' <- get bg_color ;;
        config_bg with_root_bg bg'
      else ret tt
  | None => ret tt
  end.

Definition call (cb : callback) : M unit :=
  match cb with
  | cb_update_temperature => update_temperature
  end.

(** ** The event loop

    What [root.mainloop()] can dispatch: the menu commands with the user's
    input, a pending timer that is due, and, from outside the program, time
    passing and files changing.  The menu's [Exit] ends the loop and is left
    out. *)
Inductive event :=
| MenuSelectFile (file_selected : string)
| MenuUpdateTemperature
| MenuChangeFontSize (acts : list entry_action)
| MenuChangeBgColor (color : option string)
| TimerFires (k : nat)
| TimePasses (ms : Z)
| FilesChange (files : string -> file_node).

Fixpoint remove_nth {A} (k : nat) (l : list A) : list A :=
  match l, k with
  | [], _ => []
  | _ :: r, O => r
  | x :: r, S k' => x :: remove_nth k' r
  end.

(** Tk runs a command to its end and goes on with the loop also when the
    command raised. *)
Definition run (m : M unit) (w : world) : world := snd (m w).

(** [fire ev w]: the world after the loop handled [ev], when [ev] can
    happen in [w] (a timer fires only once it is due, time only moves
    forward). *)
Definition fire (ev : event) (w : world) : option world :=
  match ev with
  | MenuSelectFile f => Some (run (select_file f) w)
  | MenuUpdateTemperature => Some (run update_temperature w)
  | MenuChangeFontSize acts => Some (run (change_font_size acts) w)
  | MenuChangeBgColor c => Some (run (change_bg_color c) w)
  | TimerFires k =>
      match nth_error (timers w) k with
      | Some (due, cb) =>
          if due <=? clock w then
            Some (run (call cb)
                      (mkWorld (self w) (fs w) (tk_color w) (stdout w) (boxes w)
                               (clock w) (remove_nth k (timers w))))
          else None
      | None => None
      end
  | TimePasses ms =>
      if 0 <=? ms then
        Some (mkWorld (self w) (fs w) (tk_color w) (stdout w) (boxes w)
                      (clock w + ms) (timers w))
      else None
  | FilesChange files =>
      Some (mkWorld (self w) files (tk_color w) (stdout w) (boxes w)
                    (clock w) (timers w))
  end.

(** What the label shows for a result of [read_latest_temperature]. *)
Definition shown (r : option PyFloat.float) : string :=
  match r with
  | Some t => PyFloat.format_2f t
  | None => "--"
  end.

Definition value_of {A} (r : result (option A)) : option A :=
  match r with
  | Ok v => v
  | Raise _ => None
  end.

Definition parse_at (file : string) (w : world) : string * option PyFloat.float :=
  (file, value_of (fst (read_latest_temperature file w))).

(** The parse, if any, that handling [ev] in [w] performs: the path read and
    what [read_latest_temperature] returned for it. *)
Definition refresh_of (ev : event) (w : world)
  : option (string * option PyFloat.float) :=
  match ev with
  | MenuSelectFile f =>
      if is_empty f then None else Some (parse_at f w)
  | MenuUpdateTemperature | TimerFires _ =>
      if is_empty (file_path (self w)) then None
      else Some (parse_at (file_path (self w)) w)
  | _ => None
  end.

(** [reach w h]: the loop can bring the program from its start to [w], and
    [h] is the last parse done on the way ([None] when there was none). *)
Inductive reach : world -> option (string * option PyFloat.float) -> Prop :=
| reach_init files colors : reach (init files colors) None
| reach_fire w h ev w' :
    reach w h -> fire ev w = Some w' ->
    reach w' (match refresh_of ev w with Some r => Some r | None => h end).

Definition reachable (w : world) : Prop := exists h, reach w h.

End App.

(** ** Observable behaviour, flattened

    Closed forms of what the methods return and leave behind, used to state
    and prove the properties below, and the sample worlds they are run on. *)

Module Obs.
Import PyStr Py App.

(** The world with some more lines on the standard output. *)
Definition emit (lines : list string) (w : world) : world :=
  mkWorld (self w) (fs w) (tk_color w) (stdout w ++ lines) (boxes w)
          (clock w) (timers w).

(** The line an [except] clause of [read_latest_temperature] prints. *)
Definition notice (e : exn) : string :=
  if issubclass (exn_class e) FileNotFoundError then "File not found."
  else if issubclass (exn_class e) IOError then "File error: " ++ exn_str e
  else "Unexpected error: " ++ exn_str e.

(** The value returned and the lines printed for the text of a file. *)
Definition parse_text (text : string) : option PyFloat.float * list string :=
  match readlines text with
  | [] => (None, ["No valid lines found in the file."])
  | _ :: _ =>
      let parts := split ";" (strip (last (readlines text) "")) in
      if (List.length parts =? 3)%nat then
        match PyFloat.float_of_str (nth 2 parts "") with
        | Some x => (Some x, [])
        | None => (None, ["Invalid temperature value: " ++ nth 2 parts ""])
        end
      else (None, ["No valid lines found in the file."])
  end.

Definition outcome (n : file_node) : option PyFloat.float * list string :=
  match n with
  | OpenRaises e | ReadRaises e => (None, [notice e])
  | Contents text => parse_text text
  end.

(** Everything of the world but the standard output is the same. *)
Definition same_state (w w' : world) : Prop :=
  self w' = self w /\ fs w' = fs w /\ tk_color w' = tk_color w /\
  boxes w' = boxes w /\ clock w' = clock w /\ timers w' = timers w.

(** The message box of a failed refresh. *)
Definition failed_box : msgbox :=
  mkBox ERROR "Error" "Failed to read temperature data.".

(** The world after [update_temperature] ran with a path set. *)
Definition refreshed (w : world) : world :=
  let r := outcome (fs w (file_path (self w))) in
  mkWorld (with_label_text (shown (fst r)) (self w)) (fs w) (tk_color w)
          (stdout w ++ snd r)
          (match fst r with
           | Some _ => boxes w
           | None => boxes w ++ [failed_box]
           end)
          (clock w)
          (timers w ++ [(clock w + update_interval (self w), cb_update_temperature)]).

(** A field of a line: no semicolon and no line break in it. *)
Definition plain_char (c : ascii) : bool :=
  negb (Ascii.eqb c ";") && negb (Ascii.eqb c LF) && negb (Ascii.eqb c CR).

Fixpoint plain (s : string) : bool :=
  match s with
  | EmptyString => true
  | String c r => plain_char c && plain r
  end.

(** A line: no line break in it. *)
Definition nobreak_char (c : ascii) : bool :=
  negb (Ascii.eqb c LF) && negb (Ascii.eqb c CR).

Fixpoint nobreak (s : string) : bool :=
  match s with
  | EmptyString => true
  | String c r => nobreak_char c && nobreak r
  end.

(** The world with some more message boxes shown. *)
Definition add_boxes (bs : list msgbox) (w : world) : world :=
  mkWorld (self w) (fs w) (tk_color w) (stdout w) (boxes w ++ bs)
          (clock w) (timers w).

(** No OK press of the dialog carries a positive integer. *)
Definition no_positive (acts : list entry_action) : bool :=
  forallb (fun a => match a with
                    | PressOk (Some v) => v <=? 0
                    | _ => true
                    end) acts.

(** [x] is a normal positive binary64 value [m * 2^e] with [e < 0], not at
    the lower end of its binade, and no other binary64 value is nearer to
    [n / d]: the two differ by at most half of [2^e]. *)
Definition nearest_to (n d : Z) (x : PyFloat.float) : Prop :=
  match x with
  | S754_finite false m e =>
      valid_binary PyFloat.prec PyFloat.emax x = true /\
      2 ^ (PyFloat.prec - 1) < Zpos m < 2 ^ PyFloat.prec /\ e < 0 /\
      2 * Z.abs (Zpos m * d - n * 2 ^ (- e)) <= d
  | _ => False
  end.

(** The label agrees with the last parse [h], which read the current path;
    before any parse there is no path and the label shows two dashes. *)
Definition display_ok (w : world) (h : option (string * option PyFloat.float)) : Prop :=
  match h with
  | None => file_path (self w) = "" /\ label_text (self w) = "--"
  | Some (file, r) =>
      file_path (self w) = file /\ file <> "" /\ label_text (self w) = shown r
  end.

(** The number of pending [after] callbacks. *)
Definition armed (w : world) : nat := List.length (timers w).

(** A sample file system and sample worlds. *)
Definition sample_files (path : string) : file_node :=
  if String.eqb path "missing.txt" then
    OpenRaises (mkExn FileNotFoundError "[Errno 2] No such file or directory")
  else if String.eqb path "locked.txt" then
    OpenRaises (mkExn PermissionError "[Errno 13] Permission denied")
  else if String.eqb path "binary.txt" then
    ReadRaises (mkExn UnicodeDecodeError "invalid start byte")
  else if String.eqb path "empty.txt" then Contents ""
  else if String.eqb path "short.txt" then Contents "a;b"
  else if String.eqb path "blank.txt" then Contents ("a;b;1.5" ++ NL ++ "  " ++ NL)
  else if String.eqb path "text.txt" then Contents "a;b;xyz"
  else if String.eqb path "one.txt" then Contents "a;b;12.34"
  else if String.eqb path "two.txt" then
    Contents ("...;...;10.0" ++ NL ++ "...;...;20.5")
  else OpenRaises (mkExn FileNotFoundError "[Errno 2] No such file or directory").

Definition sample_colors (c : string) : bool :=
  String.eqb c "white" || String.eqb c "black".

(** The program just started. *)
Definition started : world := init sample_files sample_colors.

(** The program with a path set and nothing else done. *)
Definition chosen (file : string) : world :=
  set_self (with_file_path file init_self) started.

End Obs.

(** ** Further closed forms and predicates

    Used to state what the code does beyond the properties above. *)

Module Extra.
Import PyStr Py App Obs.

Fixpoint all_digits (s : string) : bool :=
  match s with
  | EmptyString => true
  | String c r => isdigit c && all_digits r
  end.

(** A float that is neither an infinity nor a NaN. *)
Definition is_finite (x : PyFloat.float) : bool :=
  match x with
  | S754_zero _ | S754_finite _ _ _ => true
  | _ => false
  end.

Definition sign_bit (x : PyFloat.float) : bool :=
  match x with
  | S754_zero s | S754_infinity s | S754_finite s _ _ => s
  | S754_nan => false
  end.

(** [h] hundredths is the magnitude of [x] rounded to two decimals: exact
    when [x] is an integer multiple of a power of two at least 1, and
    otherwise off by at most half a hundredth. *)
Definition rounds_to_hundredths (x : PyFloat.float) (h : Z) : Prop :=
  match x with
  | S754_zero _ => h = 0
  | S754_finite _ m e =>
      0 <= h /\
      if 0 <=? e then h = Zpos m * 2 ^ e * 100
      else 2 * Z.abs (h * 2 ^ (- e) - Zpos m * 100) <= 2 ^ (- e)
  | _ => False
  end.

(** How often a character occurs in a string. *)
Fixpoint count_char (c : ascii) (s : string) : nat :=
  match s with
  | EmptyString => O
  | String d r => (if Ascii.eqb d c then 1 else 0) + count_char c r
  end.

(** The text with every line feed written as carriage return, line feed. *)
Fixpoint crlf (s : string) : string :=
  match s with
  | EmptyString => EmptyString
  | String c r =>
      if Ascii.eqb c LF then String CR (String LF (crlf r))
      else String c (crlf r)
  end.

Fixpoint no_CR (s : string) : bool :=
  match s with
  | EmptyString => true
  | String c r => negb (Ascii.eqb c CR) && no_CR r
  end.

Fixpoint all_c_space (s : string) : bool :=
  match s with
  | EmptyString => true
  | String c r => c_isspace c && all_c_space r
  end.

(** Only characters that [str.strip] removes. *)
Fixpoint all_space (s : string) : bool :=
  match s with
  | EmptyString => true
  | String c r => isspace c && all_space r
  end.


(** The object after [change_bg_color] took a colour Tk knows, and after
    [change_font_size] took a size. *)
Definition bg_set (c : string) (a : TemperatureReader) : TemperatureReader :=
  with_root_bg c (with_label_bg c (with_bg_color c a)).

Definition font_set (v : Z) (a : TemperatureReader) : TemperatureReader :=
  with_label_font ("Helvetica", v) (with_font_size v a).

(** The world with the [k]-th pending timer taken out, with the clock moved
    on, and with other files. *)
Definition drop_timer (k : nat) (w : world) : world :=
  mkWorld (self w) (fs w) (tk_color w) (stdout w) (boxes w) (clock w)
          (remove_nth k (timers w)).

Definition advance (ms : Z) (w : world) : world :=
  mkWorld (self w) (fs w) (tk_color w) (stdout w) (boxes w) (clock w + ms)
          (timers w).

Definition with_files (files : string -> file_node) (w : world) : world :=
  mkWorld (self w) files (tk_color w) (stdout w) (boxes w) (clock w)
          (timers w).

(** Each number is at most every later one. *)
Fixpoint ascending (l : list Z) : Prop :=
  match l with
  | [] => True
  | x :: r => Forall (fun y => x <= y) r /\ ascending r
  end.

(** The due times of the pending timers. *)
Definition dues (w : world) : list Z := map fst (timers w).

(** The box of a refresh asked for with no path set. *)
Definition no_file_box : msgbox :=
  mkBox ERROR "Error" "Please select a file first".

(** [effect ev w w']: what handling [ev] makes of [w], case by case, in
    closed form. *)
Inductive effect : event -> world -> world -> Prop :=
| eff_select_cancel w :
    effect (MenuSelectFile "") w w
| eff_select f w :
    f <> "" ->
    effect (MenuSelectFile f) w
           (refreshed (set_self (with_file_path f (self w)) w))
| eff_update_no_path w :
    file_path (self w) = "" ->
    effect MenuUpdateTemperature w (add_boxes [no_file_box] w)
| eff_update w :
    file_path (self w) <> "" ->
    effect MenuUpdateTemperature w (refreshed w)
| eff_font_keep acts bs w :
    effect (MenuChangeFontSize acts) w (add_boxes bs w)
| eff_font_set acts bs v w :
    1 <= v ->
    effect (MenuChangeFontSize acts) w
           (set_self (font_set v (self w)) (add_boxes bs w))
| eff_bg_cancel w :
    effect (MenuChangeBgColor None) w w
| eff_bg_empty w :
    effect (MenuChangeBgColor (Some "")) w w
| eff_bg_set c w :
    c <> "" -> tk_color w c = true ->
    effect (MenuChangeBgColor (Some c)) w (set_self (bg_set c (self w)) w)
| eff_bg_refused c w :
    c <> "" -> tk_color w c = false ->
    effect (MenuChangeBgColor (Some c)) w
           (set_self (with_bg_color c (self w)) w)
| eff_timer k due w :
    nth_error (timers w) k = Some (due, cb_update_temperature) ->
    due <= clock w -> file_path (self w) <> "" ->
    effect (TimerFires k) w (refreshed (drop_timer k w))
| eff_timer_no_path k due w :
    nth_error (timers w) k = Some (due, cb_update_temperature) ->
    due <= clock w -> file_path (self w) = "" ->
    effect (TimerFires k) w (add_boxes [no_file_box] (drop_timer k w))
| eff_time ms w :
    0 <= ms -> effect (TimePasses ms) w (advance ms w)
| eff_files files w :
    effect (FilesChange files) w (with_files files w).

End Extra.

(** ** The built-ins on sample inputs *)

Module Checks.
Import PyStr PyFloat Py App Obs.

Example readlines_keeps_line_feeds :
  readlines ("a;b;1" ++ NL ++ "c;d;2" ++ NL) = ["a;b;1" ++ NL; "c;d;2" ++ NL].
Proof. reflexivity. Qed.

Example readlines_translates_carriage_returns :
  readlines ("x" ++ String CR (String LF "y") ++ String CR "z")
  = ["x" ++ NL; "y" ++ NL; "z"].
Proof. reflexivity. Qed.

Example readlines_of_empty_file : readlines "" = [].
Proof. reflexivity. Qed.

Example strip_then_split :
  split ";" (strip ("  2024-10-20;12:00:00;23.47 " ++ NL))
  = ["2024-10-20"; "12:00:00"; "23.47"].
Proof. reflexivity. Qed.

Example split_of_empty_string : split ";" "" = [""].
Proof. reflexivity. Qed.

Example split_keeps_empty_fields : split ";" "a;;" = ["a"; ""; ""].
Proof. reflexivity. Qed.

Example float_of_20_5 :
  float_of_str "20.5" = Some (S754_finite false 5770237022568448 (-48)).
Proof. vm_compute. reflexivity. Qed.

Example float_allows_blanks_underscores_exponent :
  float_of_str " -1_0.125e+1 " = float_of_str "-101.25".
Proof. vm_compute. reflexivity. Qed.

Example float_rounds_ties_to_even :
  float_of_str "9007199254740993" = float_of_str "9007199254740992".
Proof. vm_compute. reflexivity. Qed.

Example float_overflows_to_infinity :
  float_of_str "1e400" = Some (S754_infinity false).
Proof. vm_compute. reflexivity. Qed.

Example float_of_specials :
  float_of_str "-Infinity" = Some (S754_infinity true)
  /\ float_of_str "NaN" = Some S754_nan.
Proof. split; reflexivity. Qed.

Example float_rejects :
  map float_of_str ["xyz"; ""; "."; "1e"; "1_"; "_1"; "0x10"; "1.5."; "12,5"]
  = [None; None; None; None; None; None; None; None; None].
Proof. vm_compute. reflexivity. Qed.

Example format_2f_samples :
  map (option_map format_2f)
      (map float_of_str ["20.5"; "10.0"; "0.125"; "0.375"; "2.675"; "-0.001"; "1e3"])
  = map Some ["20.50"; "10.00"; "0.12"; "0.38"; "2.67"; "-0.00"; "1000.00"].
Proof. vm_compute. reflexivity. Qed.

(** One session: a file is chosen, three minutes pass, the pending timer
    fires and leaves its successor behind. *)
Example a_session :
  match fire (MenuSelectFile "two.txt") started with
  | Some w1 =>
      label_text (self w1) = "20.50"
      /\ timers w1 = [(180000, cb_update_temperature)]
      /\ fire (TimerFires 0) w1 = None
      /\ match fire (TimePasses 180000) w1 with
         | Some w2 =>
             match fire (TimerFires 0) w2 with
             | Some w3 => timers w3 = [(360000, cb_update_temperature)]
                          /\ boxes w3 = []
             | None => False
             end
         | None => False
         end
  | None => False
  end.
Proof. vm_compute. repeat split. Qed.

End Checks.

(** Splits a goal that is a conjunction into its conjuncts. *)
Ltac conjs := repeat match goal with |- _ /\ _ => split end.

(** ** The parser: [read_latest_temperature] *)

Module Parser.
Import PyStr Py App Obs.

Lemma emit_nil w : emit [] w = w.
Proof. destruct w; unfold emit; simpl. now rewrite app_nil_r. Qed.

Lemma every_class_is_exception c : issubclass c Exception = true.
Proof. now destruct c. Qed.

Lemma dispatch_outer (e : exn) (w : world) :
  dispatch
    [ (FileNotFoundError,
       fun _ => print "File not found." ;; ret (@None PyFloat.float));
      (IOError, fun e => print ("File error: " ++ exn_str e) ;; ret None);
      (Exception, fun e =>
         print ("Unexpected error: " ++ exn_str e) ;; ret None) ] e w
  = (Ok None, emit [notice e] w).
Proof.
  unfold notice; simpl.
  destruct (issubclass (exn_class e) FileNotFoundError); [reflexivity|].
  destruct (issubclass (exn_class e) IOError); [reflexivity|].
  now rewrite every_class_is_exception.
Qed.

(** [read_latest_temperature] always returns; what it returns and prints is
    [outcome] of the node behind the path, and it touches nothing else. *)
Lemma read_latest_temperature_run file w :
  read_latest_temperature file w
  = (Ok (fst (outcome (fs w file))), emit (snd (outcome (fs w file))) w).
Proof.
  unfold read_latest_temperature, try_except at 1, bind at 1, open_readlines.
  destruct (fs w file) as [e|e|text] eqn:Hn; simpl outcome.
  - now rewrite dispatch_outer.
  - now rewrite dispatch_outer.
  - unfold parse_text.
    destruct (readlines text) as [|l ls] eqn:Hl; [reflexivity|].
    cbv zeta.
    destruct (List.length _ =? 3)%nat; [|reflexivity].
    unfold try_except, bind, float.
    destruct (PyFloat.float_of_str _); simpl; [|reflexivity].
    now rewrite emit_nil.
Qed.

Lemma parse_text_fields text :
  readlines text <> [] ->
  parse_text text =
    let parts := split ";" (strip (last (readlines text) "")) in
    if (List.length parts =? 3)%nat then
      match PyFloat.float_of_str (nth 2 parts "") with
      | Some x => (Some x, [])
      | None => (None, ["Invalid temperature value: " ++ nth 2 parts ""])
      end
    else (None, ["No valid lines found in the file."]).
Proof.
  intros H. unfold parse_text.
  destruct (readlines text); [contradiction|reflexivity].
Qed.

Lemma same_state_emit lines w : same_state w (emit lines w).
Proof. unfold same_state, emit; simpl. tauto. Qed.

(** C2, as the code has it: every failure of [read_latest_temperature]
    returns the one value [None]; the kind of failure shows only in the line
    printed on the standard output: [File not found.] for a missing file,
    [File error: ...] for any other [OSError], [Unexpected error: ...] for
    any other exception, [No valid lines found in the file.] both for a file
    of zero lines and for a last line whose field count is not 3, and
    [Invalid temperature value: ...] with the offending text for a third
    field that is no number. *)
Theorem failures_return_None_and_print file w :
  (forall e, fs w file = OpenRaises e \/ fs w file = ReadRaises e ->
     issubclass (exn_class e) FileNotFoundError = true ->
     read_latest_temperature file w = (Ok None, emit ["File not found."] w))
  /\
  (forall e, fs w file = OpenRaises e \/ fs w file = ReadRaises e ->
     issubclass (exn_class e) FileNotFoundError = false ->
     issubclass (exn_class e) IOError = true ->
     read_latest_temperature file w
     = (Ok None, emit ["File error: " ++ exn_str e] w))
  /\
  (forall e, fs w file = OpenRaises e \/ fs w file = ReadRaises e ->
     issubclass (exn_class e) IOError = false ->
     read_latest_temperature file w
     = (Ok None, emit ["Unexpected error: " ++ exn_str e] w))
  /\
  (forall text, fs w file = Contents text -> readlines text = [] ->
     read_latest_temperature file w
     = (Ok None, emit ["No valid lines found in the file."] w))
  /\
  (forall text, fs w file = Contents text -> readlines text <> [] ->
     List.length (split ";" (strip (last (readlines text) ""))) <> 3%nat ->
     read_latest_temperature file w
     = (Ok None, emit ["No valid lines found in the file."] w))
  /\
  (forall text, fs w file = Contents text -> readlines text <> [] ->
     let parts := split ";" (strip (last (readlines text) "")) in
     List.length parts = 3%nat ->
     PyFloat.float_of_str (nth 2 parts "") = None ->
     read_latest_temperature file w
     = (Ok None, emit ["Invalid temperature value: " ++ nth 2 parts ""] w)).
Proof.
  rewrite read_latest_temperature_run.
  conjs.
  - intros e [H|H] Hc; rewrite H; simpl; unfold notice; now rewrite Hc.
  - intros e [H|H] Hc Hi; rewrite H; simpl; unfold notice; now rewrite Hc, Hi.
  - intros e [H|H] Hi; rewrite H; simpl; unfold notice;
      (destruct (issubclass (exn_class e) FileNotFoundError) eqn:Hc;
       [destruct (exn_class e); discriminate | now rewrite Hi]).
  - intros text H Hl. rewrite H; simpl. unfold parse_text. now rewrite Hl.
  - intros text H Hl Hn. rewrite H; simpl. rewrite (parse_text_fields _ Hl).
    cbv zeta. apply Nat.eqb_neq in Hn. now rewrite Hn.
  - intros text H Hl parts Hn Hf. rewrite H; simpl.
    rewrite (parse_text_fields _ Hl). cbv zeta. fold parts.
    apply Nat.eqb_eq in Hn. now rewrite Hn, Hf.
Qed.

(** The five kinds of failure at sample files. *)
Lemma failures_return_None_and_print_witness :
  read_latest_temperature "missing.txt" started
  = (Ok None, emit ["File not found."] started)
  /\ read_latest_temperature "locked.txt" started
     = (Ok None, emit ["File error: [Errno 13] Permission denied"] started)
  /\ read_latest_temperature "binary.txt" started
     = (Ok None, emit ["Unexpected error: invalid start byte"] started)
  /\ read_latest_temperature "empty.txt" started
     = (Ok None, emit ["No valid lines found in the file."] started)
  /\ read_latest_temperature "short.txt" started
     = (Ok None, emit ["No valid lines found in the file."] started)
  /\ read_latest_temperature "text.txt" started
     = (Ok None, emit ["Invalid temperature value: xyz"] started).
Proof.
  conjs.
  - apply (proj1 (failures_return_None_and_print "missing.txt" started)
             (mkExn FileNotFoundError "[Errno 2] No such file or directory"));
      [left|]; reflexivity.
  - apply (proj1 (proj2 (failures_return_None_and_print "locked.txt" started))
             (mkExn PermissionError "[Errno 13] Permission denied"));
      [left| |]; reflexivity.
  - apply (proj1 (proj2 (proj2 (failures_return_None_and_print "binary.txt" started)))
             (mkExn UnicodeDecodeError "invalid start byte"));
      [right|]; reflexivity.
  - apply (proj1 (proj2 (proj2 (proj2
             (failures_return_None_and_print "empty.txt" started)))) "");
      reflexivity.
  - apply (proj1 (proj2 (proj2 (proj2 (proj2
             (failures_return_None_and_print "short.txt" started))))) "a;b");
      [reflexivity | vm_compute; discriminate | vm_compute; discriminate].
  - apply (proj2 (proj2 (proj2 (proj2 (proj2
             (failures_return_None_and_print "text.txt" started))))) "a;b;xyz");
      [reflexivity | vm_compute; discriminate | reflexivity | reflexivity].
Defined.

(** C2, as the specification words it, fails: a missing file, an unreadable
    file, an empty file, a two-field line and a non-numeric third field all
    give the same return value, [None]. *)
Lemma failure_kinds_share_one_value :
  fst (read_latest_temperature "missing.txt" started) = Ok None
  /\ fst (read_latest_temperature "locked.txt" started) = Ok None
  /\ fst (read_latest_temperature "empty.txt" started) = Ok None
  /\ fst (read_latest_temperature "short.txt" started) = Ok None
  /\ fst (read_latest_temperature "text.txt" started) = Ok None.
Proof. conjs; reflexivity. Qed.

(** C3: for a readable file of at least one line whose last line, stripped,
    splits on the semicolon into exactly three fields of which the third
    parses as a float, [read_latest_temperature] returns that float and
    prints nothing; when the stripped last line is [a;b;12.34], the float
    returned is the binary64 value nearest to 12.34. *)
Theorem read_latest_temperature_returns_number :
  (forall file w text x,
     fs w file = Contents text -> readlines text <> [] ->
     let parts := split ";" (strip (last (readlines text) "")) in
     List.length parts = 3%nat ->
     PyFloat.float_of_str (nth 2 parts "") = Some x ->
     read_latest_temperature file w = (Ok (Some x), w))
  /\
  (forall file w text,
     fs w file = Contents text -> readlines text <> [] ->
     strip (last (readlines text) "") = "a;b;12.34" ->
     exists x, read_latest_temperature file w = (Ok (Some x), w)
               /\ nearest_to 1234 100 x).
Proof.
  assert (G : forall file w text x,
     fs w file = Contents text -> readlines text <> [] ->
     let parts := split ";" (strip (last (readlines text) "")) in
     List.length parts = 3%nat ->
     PyFloat.float_of_str (nth 2 parts "") = Some x ->
     read_latest_temperature file w = (Ok (Some x), w)).
  { intros file w text x H Hl parts Hn Hf.
    rewrite read_latest_temperature_run, H; simpl.
    rewrite (parse_text_fields _ Hl); cbv zeta; fold parts.
    apply Nat.eqb_eq in Hn. rewrite Hn, Hf; simpl. now rewrite emit_nil. }
  split; [exact G|].
  intros file w text H Hl Hs.
  exists (S754_finite false 6946802425218990 (-49)). split.
  - apply (G file w text _ H Hl); rewrite Hs; reflexivity.
  - unfold nearest_to. conjs; try reflexivity. vm_compute; discriminate.
Qed.

(** The file [one.txt] holds the single line [a;b;12.34]. *)
Lemma read_latest_temperature_returns_number_witness :
  read_latest_temperature "one.txt" started
  = (Ok (Some (S754_finite false 6946802425218990 (-49))), started).
Proof.
  apply (proj1 read_latest_temperature_returns_number
               "one.txt" started "a;b;12.34");
    [reflexivity | vm_compute; discriminate | reflexivity | reflexivity].
Defined.



(** C6: [read_latest_temperature] called a second time right after the first
    returns the same result; neither call changes the application object,
    the widgets, the timers, the message boxes, the clock or the files (each
    may only add lines to the standard output); and any call in a world
    where the path leads to the same file node returns that result too. *)
Theorem read_latest_temperature_pure file w :
  let first := read_latest_temperature file w in
  let second := read_latest_temperature file (snd first) in
  fst second = fst first
  /\ same_state w (snd first)
  /\ same_state (snd first) (snd second)
  /\ (exists lines, stdout (snd first) = (stdout w ++ lines)%list)
  /\ (forall w', fs w' file = fs w file ->
       fst (read_latest_temperature file w') = fst first).
Proof.
  cbv zeta. rewrite !read_latest_temperature_run. simpl.
  conjs.
  - reflexivity.
  - apply same_state_emit.
  - apply same_state_emit.
  - eexists; reflexivity.
  - intros w' H. now rewrite read_latest_temperature_run, H.
Qed.

(** Two calls on [one.txt], the second in the world the first left, and a
    third in a world that differs in its clock. *)
Lemma read_latest_temperature_pure_witness :
  fst (read_latest_temperature "one.txt"
         (snd (read_latest_temperature "one.txt" started)))
  = fst (read_latest_temperature "one.txt" started)
  /\ fst (read_latest_temperature "one.txt"
            (mkWorld init_self sample_files sample_colors [] [] 5 []))
     = fst (read_latest_temperature "one.txt" started).
Proof.
  split.
  - exact (proj1 (read_latest_temperature_pure "one.txt" started)).
  - apply (proj2 (proj2 (proj2 (proj2
             (read_latest_temperature_pure "one.txt" started))))).
    reflexivity.
Defined.



End Parser.

(** ** Facts about lines, stripping and splitting *)

Module StrFacts.
Import PyStr Py App Obs.

Lemma append_assoc (a b c : string) : (a ++ b) ++ c = a ++ (b ++ c).
Proof. induction a as [|x a IH]; simpl; [reflexivity | now rewrite IH]. Qed.

Lemma is_empty_false s : is_empty s = false <-> s <> "".
Proof. destruct s; simpl; split; intros; congruence. Qed.

Lemma is_empty_true s : is_empty s = true <-> s = "".
Proof. destruct s; simpl; split; intros; congruence. Qed.

Lemma nobreak_app a b : nobreak (a ++ b) = nobreak a && nobreak b.
Proof.
  induction a as [|c a IH]; simpl; [reflexivity|].
  now rewrite IH, andb_assoc.
Qed.

Lemma plain_nobreak a : plain a = true -> nobreak a = true.
Proof.
  induction a as [|c a IH]; simpl; [reflexivity|].
  unfold plain_char, nobreak_char. intros H.
  apply andb_true_iff in H as [Hc Ha].
  apply andb_true_iff in Hc as [Hc Hcr].
  apply andb_true_iff in Hc as [_ Hlf].
  now rewrite Hlf, Hcr, IH.
Qed.

Lemma nobreak_char_inv c :
  nobreak_char c = true -> Ascii.eqb c LF = false /\ Ascii.eqb c CR = false.
Proof.
  unfold nobreak_char. intros H. apply andb_true_iff in H as [H1 H2].
  split; now apply negb_true_iff.
Qed.

(** A text without line breaks is read unchanged, whatever follows it. *)
Lemma universal_newlines_nobreak l t :
  nobreak l = true ->
  universal_newlines (l ++ t) = l ++ universal_newlines t.
Proof.
  induction l as [|c l IH]; simpl; [reflexivity|].
  intros H. apply andb_true_iff in H as [Hc Hl].
  apply nobreak_char_inv in Hc as [_ Hcr].
  now rewrite Hcr, IH.
Qed.

Lemma universal_newlines_id l : nobreak l = true -> universal_newlines l = l.
Proof.
  induction l as [|c l IH]; simpl; [reflexivity|].
  intros H. apply andb_true_iff in H as [Hc Hl].
  apply nobreak_char_inv in Hc as [_ Hcr].
  now rewrite Hcr, IH.
Qed.

(** What precedes a line feed is translated on its own. *)
Lemma universal_newlines_before_LF n : forall s t,
  (String.length s <= n)%nat ->
  exists u, universal_newlines (s ++ String LF t)
            = u ++ String LF (universal_newlines t).
Proof.
  induction n as [|n IH]; intros s t Hn.
  - destruct s; [|simpl in Hn; lia]. exists "". reflexivity.
  - destruct s as [|c s]; [exists ""; reflexivity|].
    simpl in Hn. simpl.
    destruct (Ascii.eqb c CR) eqn:Hc.
    + destruct s as [|d s]; simpl.
      * exists "". reflexivity.
      * destruct (Ascii.eqb d LF) eqn:Hd.
        -- destruct (IH s t ltac:(simpl in Hn; lia)) as [u Hu].
           exists (String LF u). now rewrite Hu.
        -- destruct (IH (String d s) t ltac:(lia)) as [u Hu].
           exists (String LF u). simpl in Hu. now rewrite Hu.
    + destruct (IH s t ltac:(lia)) as [u Hu].
      exists (String c u). now rewrite Hu.
Qed.

Lemma lines_keepends_nobreak l t :
  nobreak l = true ->
  lines_keepends (l ++ String LF t) = (l ++ String LF "") :: lines_keepends t.
Proof.
  induction l as [|c l IH]; simpl; [reflexivity|].
  intros H. apply andb_true_iff in H as [Hc Hl].
  apply nobreak_char_inv in Hc as [Hlf _].
  now rewrite Hlf, IH.
Qed.

Lemma lines_keepends_one l :
  nobreak l = true -> l <> "" -> lines_keepends l = [l].
Proof.
  induction l as [|c l IH]; simpl; [congruence|].
  intros H _. apply andb_true_iff in H as [Hc Hl].
  apply nobreak_char_inv in Hc as [Hlf _]. rewrite Hlf.
  destruct l as [|d l]; [reflexivity|].
  now rewrite IH.
Qed.

(** After a line feed, a text that is one line is the last line. *)
Lemma lines_keepends_last t u :
  lines_keepends t = [t] ->
  exists L, L <> [] /\ lines_keepends (u ++ String LF t) = (L ++ [t])%list.
Proof.
  intros Ht. induction u as [|c u [L [HL IH]]]; simpl.
  - exists [String LF ""]. rewrite Ht. split; [discriminate|reflexivity].
  - rewrite IH. destruct (Ascii.eqb c LF).
    + exists (String c "" :: L). split; [discriminate|reflexivity].
    + destruct L as [|l0 L]; [contradiction|].
      exists (String c l0 :: L). split; [discriminate|reflexivity].
Qed.

Lemma last_snoc {A} (L : list A) (x d : A) : last (L ++ [x]) d = x.
Proof.
  induction L as [|y L IH]; [reflexivity|].
  simpl. destruct (L ++ [x])%list eqn:E; [now destruct L|exact IH].
Qed.

(** The last line read: whatever comes before the last line feed is left
    out. *)
Lemma readlines_last before t :
  universal_newlines t = t -> lines_keepends t = [t] ->
  readlines (before ++ String LF t) <> []
  /\ last (readlines (before ++ String LF t)) "" = t.
Proof.
  intros Hu Hk. unfold readlines.
  destruct (universal_newlines_before_LF _ before t (le_n _)) as [u E].
  rewrite E, Hu.
  destruct (lines_keepends_last t u Hk) as [L [HL HE]].
  rewrite HE. split.
  - now destruct L.
  - apply last_snoc.
Qed.

Lemma one_line l :
  nobreak l = true -> l <> "" ->
  universal_newlines l = l /\ lines_keepends l = [l].
Proof.
  intros H Hne. split.
  - now apply universal_newlines_id.
  - now apply lines_keepends_one.
Qed.

Lemma one_line_LF l :
  nobreak l = true ->
  universal_newlines (l ++ NL) = l ++ NL /\ lines_keepends (l ++ NL) = [l ++ NL].
Proof.
  intros H. split.
  - now rewrite universal_newlines_nobreak.
  - unfold NL. now rewrite lines_keepends_nobreak.
Qed.

Section StripFacts.
Variable sp : ascii -> bool.

Lemma rstrip_by_app x t :
  rstrip_by sp t <> "" -> rstrip_by sp (x ++ t) = x ++ rstrip_by sp t.
Proof.
  intros Ht. induction x as [|c x IH]; simpl; [reflexivity|].
  rewrite IH. destruct (x ++ rstrip_by sp t) eqn:E; [|reflexivity].
  destruct x; simpl in E; congruence.
Qed.

Lemma rstrip_by_blank x t :
  rstrip_by sp t = "" -> rstrip_by sp (x ++ t) = rstrip_by sp x.
Proof.
  intros Ht. induction x as [|c x IH]; simpl; [exact Ht|].
  now rewrite IH.
Qed.

Lemma lstrip_by_app a c rest :
  sp c = false ->
  lstrip_by sp (a ++ String c rest) = lstrip_by sp a ++ String c rest.
Proof.
  intros Hc. induction a as [|d a IH]; simpl; [now rewrite Hc|].
  destruct (sp d); [exact IH|reflexivity].
Qed.
End StripFacts.

Lemma plain_lstrip a : plain a = true -> plain (lstrip_by isspace a) = true.
Proof.
  induction a as [|c a IH]; simpl; [reflexivity|].
  intros H. destruct (isspace c).
  - apply andb_true_iff in H as [_ Ha]. now apply IH.
  - exact H.
Qed.

Lemma split_plain a : plain a = true -> split ";" a = [a].
Proof.
  induction a as [|c a IH]; simpl; [reflexivity|].
  intros H. apply andb_true_iff in H as [Hc Ha].
  unfold plain_char in Hc.
  apply andb_true_iff in Hc as [Hc _]. apply andb_true_iff in Hc as [Hc _].
  apply negb_true_iff in Hc. now rewrite Hc, IH.
Qed.

Lemma split_field a r :
  plain a = true -> split ";" (a ++ String ";" r) = a :: split ";" r.
Proof.
  induction a as [|c a IH]; simpl; [reflexivity|].
  intros H. apply andb_true_iff in H as [Hc Ha].
  unfold plain_char in Hc.
  apply andb_true_iff in Hc as [Hc _]. apply andb_true_iff in Hc as [Hc _].
  apply negb_true_iff in Hc. now rewrite Hc, IH.
Qed.

(** The fields of a line of three plain fields, the third without white
    space at its end, followed by white space only. *)
Lemma fields_of_line a b v tail :
  plain a = true -> plain b = true -> plain v = true ->
  rstrip_by isspace v = v -> v <> "" -> rstrip_by isspace tail = "" ->
  split ";" (strip (a ++ ";" ++ b ++ ";" ++ v ++ tail))
  = [lstrip_by isspace a; b; v].
Proof.
  intros Ha Hb Hv Hr Hne Ht. unfold strip, strip_by. simpl.
  rewrite lstrip_by_app by reflexivity.
  replace (lstrip_by isspace a ++ String ";" (b ++ String ";" (v ++ tail)))
    with ((lstrip_by isspace a ++ String ";" (b ++ String ";" "")) ++ (v ++ tail)).
  2:{ rewrite append_assoc. simpl. now rewrite append_assoc. }
  rewrite rstrip_by_app; rewrite rstrip_by_blank by exact Ht;
    [|now rewrite Hr].
  rewrite Hr, append_assoc. simpl. rewrite append_assoc. simpl.
  rewrite split_field by now apply plain_lstrip.
  rewrite split_field by exact Hb.
  now rewrite split_plain.
Qed.

(** A line of three plain fields, with or without its line feed, is read
    as one line. *)
Lemma line_of_fields a b v tail :
  plain a = true -> plain b = true -> plain v = true -> v <> "" ->
  tail = "" \/ tail = NL ->
  let t := a ++ ";" ++ b ++ ";" ++ v ++ tail in
  universal_newlines t = t /\ lines_keepends t = [t].
Proof.
  intros Ha Hb Hv Hne Ht. cbv zeta.
  assert (Hl : nobreak (a ++ ";" ++ b ++ ";" ++ v) = true).
  { simpl. rewrite nobreak_app. simpl. rewrite nobreak_app. simpl.
    now rewrite !plain_nobreak. }
  destruct Ht as [-> | ->].
  - replace (v ++ "") with v by (clear; induction v; simpl; congruence).
    apply one_line; [exact Hl|]. destruct a; discriminate.
  - replace (a ++ ";" ++ b ++ ";" ++ v ++ NL)
      with ((a ++ ";" ++ b ++ ";" ++ v) ++ NL).
    + now apply one_line_LF.
    + simpl. repeat (rewrite append_assoc; simpl). reflexivity.
Qed.

End StrFacts.

(** ** What each method leaves behind, and what every reachable world
    satisfies *)

Module Steps.
Import PyStr Py App Obs.

Lemma update_temperature_run w :
  file_path (self w) <> "" -> update_temperature w = (Ok tt, refreshed w).
Proof.
  intros H. apply StrFacts.is_empty_false in H.
  unfold update_temperature, bind at 1, get. rewrite H.
  unfold bind at 1. unfold bind at 1.
  rewrite Parser.read_latest_temperature_run.
  unfold refreshed.
  destruct (outcome (fs w (file_path (self w)))) as [[x|] msgs]; reflexivity.
Qed.

Lemma update_temperature_no_path w :
  file_path (self w) = "" ->
  update_temperature w
  = (Ok tt, add_boxes [mkBox ERROR "Error" "Please select a file first"] w).
Proof.
  intros H. unfold update_temperature, bind, get. now rewrite H.
Qed.

Lemma select_file_run f w :
  f <> "" ->
  select_file f w = (Ok tt, refreshed (set_self (with_file_path f (self w)) w)).
Proof.
  intros H. unfold select_file.
  rewrite (proj2 (StrFacts.is_empty_false f) H). simpl.
  unfold bind at 1, modify_self.
  now rewrite update_temperature_run.
Qed.

Lemma parse_at_outcome f w : parse_at f w = (f, fst (outcome (fs w f))).
Proof. unfold parse_at. now rewrite Parser.read_latest_temperature_run. Qed.

Lemma add_boxes_nil w : add_boxes [] w = w.
Proof. destruct w; unfold add_boxes; simpl. now rewrite app_nil_r. Qed.

Lemma add_boxes_add bs bs' w :
  add_boxes bs' (add_boxes bs w) = add_boxes (bs ++ bs') w.
Proof. unfold add_boxes; simpl. now rewrite app_assoc. Qed.

Lemma askinteger_too_small mv v rest w :
  (v <? mv) = true ->
  askinteger mv (PressOk (Some v) :: rest) w
  = askinteger mv rest
      (add_boxes
         [mkBox WARNING "Too small"
            ("The allowed minimum value is "
               ++ NilZero.string_of_int (Z.to_int mv) ++ ". Please try again.")] w).
Proof. intros H. cbn [askinteger]. now rewrite H. Qed.

Lemma askinteger_illegal mv rest w :
  askinteger mv (PressOk None :: rest) w
  = askinteger mv rest
      (add_boxes
         [mkBox WARNING "Illegal value"
            ("Not an integer." ++ NL ++ "Please try again")] w).
Proof. reflexivity. Qed.

(** The dialog returns; it only shows warnings; what it returns is no less
    than the minimum; and it returns [None] when no OK press carried a
    positive integer and the minimum is 1. *)
Lemma askinteger_run acts : forall w,
  exists r bs,
    askinteger 1 acts w = (Ok r, add_boxes bs w)
    /\ (forall v, r = Some v -> 1 <= v)
    /\ (no_positive acts = true -> r = None).
Proof.
  induction acts as [|a acts IH]; intros w.
  - exists None, []. rewrite add_boxes_nil. now conjs.
  - destruct a as [[v|]|].
    + destruct (v <? 1) eqn:Hv.
      * rewrite (askinteger_too_small _ _ _ _ Hv).
        match goal with
        | |- context [askinteger 1 acts ?w0] =>
            destruct (IH w0) as [r [bs [E [Hr Hn]]]]
        end.
        exists r. eexists. conjs;
          [rewrite E, add_boxes_add; reflexivity | exact Hr |].
        intros H. apply Hn. now apply andb_true_iff in H as [_ H].
      * exists (Some v), []. rewrite add_boxes_nil. conjs.
        -- cbn [askinteger]. now rewrite Hv.
        -- intros v' E. injection E as <-. apply Z.ltb_ge in Hv. exact Hv.
        -- intros H. apply andb_true_iff in H as [H _].
           apply Z.leb_le in H. apply Z.ltb_ge in Hv. lia.
    + rewrite askinteger_illegal.
      match goal with
      | |- context [askinteger 1 acts ?w0] =>
          destruct (IH w0) as [r [bs [E [Hr Hn]]]]
      end.
      exists r. eexists. conjs;
        [rewrite E, add_boxes_add; reflexivity | exact Hr | exact Hn].
    + exists None, []. rewrite add_boxes_nil. now conjs.
Qed.

(** [change_font_size] returns; it keeps the path, the label text, the
    interval, the timers, the files and the clock; the stored size is the
    old one or an accepted value. *)
Lemma change_font_size_run acts w :
  exists r bs,
    askinteger 1 acts w = (Ok r, add_boxes bs w)
    /\ (forall v, r = Some v -> 1 <= v)
    /\ (no_positive acts = true -> r = None)
    /\ change_font_size acts w
       = (Ok tt,
          match r with
          | Some v =>
              set_self (with_label_font ("Helvetica", v)
                          (with_font_size v (self w))) (add_boxes bs w)
          | None => add_boxes bs w
          end).
Proof.
  destruct (askinteger_run acts w) as [r [bs [E [Hr Hn]]]].
  exists r, bs. conjs; auto.
  unfold change_font_size, bind at 1. rewrite E.
  destruct r; reflexivity.
Qed.

Lemma change_bg_color_frame c w :
  let w' := run (change_bg_color c) w in
  file_path (self w') = file_path (self w)
  /\ label_text (self w') = label_text (self w)
  /\ update_interval (self w') = update_interval (self w)
  /\ font_size (self w') = font_size (self w)
  /\ timers w' = timers w /\ fs w' = fs w.
Proof.
  unfold run, change_bg_color.
  destruct c as [c|]; [|simpl; tauto].
  destruct (is_empty c); [simpl; tauto|]. simpl.
  unfold bind, modify_self, get, config_bg; simpl.
  destruct (tk_color w c) eqn:E; simpl; rewrite ?E; simpl; tauto.
Qed.

Lemma change_font_size_frame acts w :
  let w' := run (change_font_size acts) w in
  file_path (self w') = file_path (self w)
  /\ label_text (self w') = label_text (self w)
  /\ update_interval (self w') = update_interval (self w)
  /\ (font_size (self w') = font_size (self w) \/ 1 <= font_size (self w'))
  /\ timers w' = timers w /\ fs w' = fs w.
Proof.
  destruct (change_font_size_run acts w) as [r [bs [_ [Hr [_ E]]]]].
  unfold run. rewrite E. destruct r as [v|]; simpl; conjs; auto.
Qed.

Lemma display_ok_frame w w' h :
  file_path (self w') = file_path (self w) ->
  label_text (self w') = label_text (self w) ->
  display_ok w h -> display_ok w' h.
Proof.
  unfold display_ok. intros -> ->. exact (fun H => H).
Qed.

Lemma nth_error_some_nonempty {A} (l : list A) k x :
  nth_error l k = Some x -> l <> [].
Proof. destruct l; [destruct k; discriminate | discriminate]. Qed.

(** Every reachable world: the label agrees with the last parse, which read
    the current path; the font size is positive; the interval is three
    minutes; and a timer is pending only when a path is set. *)
Lemma reach_invariant w h :
  reach w h ->
  display_ok w h
  /\ 0 < font_size (self w)
  /\ update_interval (self w) = 180000
  /\ (timers w = [] \/ file_path (self w) <> "").
Proof.
  induction 1 as [files colors | w h ev w' Hreach [Hd [Hf [Hu Ht]]] Hfire].
  - simpl. conjs; auto; lia.
  - destruct ev as [f | | acts | c | k | ms | files]; simpl in Hfire.
    + (* Select File *)
      injection Hfire as <-. unfold run. simpl refresh_of.
      destruct (is_empty f) eqn:Hf0.
      * apply StrFacts.is_empty_true in Hf0. subst f. simpl. now conjs.
      * apply StrFacts.is_empty_false in Hf0.
        rewrite (select_file_run _ _ Hf0), parse_at_outcome. simpl.
        conjs; auto.
    + (* Update Temperature *)
      injection Hfire as <-. unfold run. simpl refresh_of.
      destruct (is_empty (file_path (self w))) eqn:Hf0.
      * apply StrFacts.is_empty_true in Hf0.
        rewrite (update_temperature_no_path _ Hf0). simpl. now conjs.
      * apply StrFacts.is_empty_false in Hf0.
        rewrite (update_temperature_run _ Hf0), parse_at_outcome. simpl.
        conjs; auto.
    + (* Change Font Size *)
      injection Hfire as <-. simpl refresh_of.
      destruct (change_font_size_frame acts w) as [E1 [E2 [E3 [E4 [E5 E6]]]]].
      conjs.
      * eapply display_ok_frame; eauto.
      * destruct E4 as [E4|E4]; [now rewrite E4 | lia].
      * now rewrite E3.
      * now rewrite E5, E1.
    + (* Change Background Color *)
      injection Hfire as <-. simpl refresh_of.
      destruct (change_bg_color_frame c w) as [E1 [E2 [E3 [E4 [E5 E6]]]]].
      conjs.
      * eapply display_ok_frame; eauto.
      * now rewrite E4.
      * now rewrite E3.
      * now rewrite E5, E1.
    + (* a timer fires *)
      destruct (nth_error (timers w) k) as [[due cb]|] eqn:Hk; [|discriminate].
      destruct (due <=? clock w); [|discriminate].
      injection Hfire as <-.
      destruct Ht as [Ht|Ht];
        [now apply nth_error_some_nonempty in Hk|].
      simpl refresh_of.
      rewrite (proj2 (StrFacts.is_empty_false _) Ht), parse_at_outcome.
      destruct cb. unfold run, call.
      rewrite update_temperature_run by exact Ht. simpl.
      conjs; auto.
    + (* time passes *)
      destruct (0 <=? ms); [|discriminate]. injection Hfire as <-.
      simpl. now conjs.
    + (* files change *)
      injection Hfire as <-. simpl. now conjs.
Qed.

End Steps.

(** ** The scheduler: [update_temperature], [schedule_update], [select_file] *)

Module Scheduler.
Import PyStr Py App Obs Steps.

Lemma reachable_started : reachable started.
Proof. exists None. apply reach_init. Qed.

Lemma reachable_fire w ev w' :
  reachable w -> fire ev w = Some w' -> reachable w'.
Proof. intros [h H] E. eexists. eapply reach_fire; eauto. Qed.

Lemma remove_nth_length {A} (l : list A) : forall k x,
  nth_error l k = Some x -> S (List.length (remove_nth k l)) = List.length l.
Proof.
  induction l as [|y l IH]; intros [|k] x H; simpl in *; try discriminate.
  - reflexivity.
  - now rewrite (IH _ _ H).
Qed.

Lemma armed_refreshed w : armed (refreshed w) = S (armed w).
Proof. unfold armed, refreshed; simpl. rewrite length_app. simpl. lia. Qed.

(** C1, as the code has it: [update_temperature] invoked with a path set
    re-arms the timer, scheduling [update_temperature] again after
    [update_interval] (180000 ms in every reachable world), whether the parse
    succeeded or failed; invoked with no path set it shows the error box and
    returns without scheduling anything.  A timer is pending only once a
    path is set, so every tick that a timer fires re-arms. *)
Theorem update_temperature_rearms_with_path w :
  (file_path (self w) <> "" ->
   timers (run update_temperature w)
   = (timers w ++ [(clock w + update_interval (self w), cb_update_temperature)])%list
   /\ label_text (self (run update_temperature w))
      = shown (value_of (fst (read_latest_temperature (file_path (self w)) w))))
  /\ (file_path (self w) = "" ->
      timers (run update_temperature w) = timers w
      /\ boxes (run update_temperature w)
         = (boxes w ++ [mkBox ERROR "Error" "Please select a file first"])%list)
  /\ (reachable w -> update_interval (self w) = 180000)
  /\ (reachable w -> forall k w', fire (TimerFires k) w = Some w' ->
      file_path (self w) <> ""
      /\ timers w'
         = (remove_nth k (timers w)
              ++ [(clock w + 180000, cb_update_temperature)])%list).
Proof.
  conjs.
  - intros H. unfold run. rewrite (update_temperature_run _ H).
    rewrite Parser.read_latest_temperature_run. split; reflexivity.
  - intros H. unfold run. rewrite (update_temperature_no_path _ H).
    split; reflexivity.
  - intros [h H]. now apply reach_invariant in H.
  - intros [h R] k w' E. simpl in E.
    destruct (nth_error (timers w) k) as [[due cb]|] eqn:Hk; [|discriminate].
    destruct (due <=? clock w); [|discriminate]. injection E as <-.
    apply reach_invariant in R as [_ [_ [Hu [R|R]]]];
      [now apply nth_error_some_nonempty in Hk|].
    split; [exact R|].
    destruct cb. unfold call, run.
    rewrite update_temperature_run by exact R.
    unfold refreshed; simpl. now rewrite Hu.
Qed.

(** A tick on a file that parses, a tick on one that does not, and a tick
    with no path. *)
Lemma update_temperature_rearms_with_path_witness :
  (timers (run update_temperature (chosen "one.txt"))
   = [(180000, cb_update_temperature)]
   /\ label_text (self (run update_temperature (chosen "one.txt"))) = "12.34")
  /\ (timers (run update_temperature (chosen "text.txt"))
      = [(180000, cb_update_temperature)]
      /\ label_text (self (run update_temperature (chosen "text.txt"))) = "--")
  /\ timers (run update_temperature started) = [].
Proof.
  split; [|split].
  - apply (proj1 (update_temperature_rearms_with_path (chosen "one.txt"))).
    simpl; discriminate.
  - apply (proj1 (update_temperature_rearms_with_path (chosen "text.txt"))).
    simpl; discriminate.
  - apply (proj1 (proj2 (update_temperature_rearms_with_path started))).
    reflexivity.
Defined.

(** C1, as the specification words it, fails: the tick taken with no path
    set returns normally and leaves no timer pending. *)
Lemma aborted_tick_schedules_nothing :
  file_path (self started) = ""
  /\ fst (update_temperature started) = Ok tt
  /\ timers (run update_temperature started) = []
  /\ boxes (run update_temperature started)
     = [mkBox ERROR "Error" "Please select a file first"].
Proof. conjs; reflexivity. Qed.

(** C4: with the path set to a file whose last line is [a;b;20.5], for any
    fields [a] and [b], whatever stands before that line (a line ending in
    [10.0], say) and with or without a final line feed, one run of
    [update_temperature] leaves [20.50] on the label. *)
Theorem tick_displays_last_reading w before a b tail :
  file_path (self w) <> "" ->
  plain a = true -> plain b = true ->
  tail = "" \/ tail = NL ->
  fs w (file_path (self w))
  = Contents (before ++ NL ++ a ++ ";" ++ b ++ ";20.5" ++ tail) ->
  label_text (self (run update_temperature w)) = "20.50".
Proof.
  intros Hp Ha Hb Ht Hfs. unfold run.
  rewrite (update_temperature_run _ Hp).
  change (label_text (self (snd (Ok tt, refreshed w))))
    with (shown (fst (outcome (fs w (file_path (self w)))))).
  rewrite Hfs. cbn [outcome].
  destruct (StrFacts.line_of_fields a b "20.5" tail Ha Hb eq_refl
              ltac:(discriminate) Ht) as [Hu Hk].
  destruct (StrFacts.readlines_last before _ Hu Hk) as [Hne Hlast].
  change (before ++ NL ++ a ++ ";" ++ b ++ ";20.5" ++ tail)
    with (before ++ String LF (a ++ ";" ++ b ++ ";" ++ "20.5" ++ tail)).
  rewrite (Parser.parse_text_fields _ Hne). cbv zeta.
  rewrite Hlast.
  rewrite (StrFacts.fields_of_line a b "20.5" tail Ha Hb eq_refl eq_refl
             ltac:(discriminate)).
  - reflexivity.
  - destruct Ht as [-> | ->]; reflexivity.
Qed.

(** The file [two.txt] holds the line [...;...;10.0] and then the line
    [...;...;20.5]. *)
Lemma tick_displays_last_reading_witness :
  fs (chosen "two.txt") "two.txt"
  = Contents ("...;...;10.0" ++ NL ++ "...;...;20.5")
  /\ label_text (self (run update_temperature (chosen "two.txt"))) = "20.50".
Proof.
  split; [reflexivity|].
  apply (tick_displays_last_reading (chosen "two.txt")
           "...;...;10.0" "..." "..." "").
  - simpl; discriminate.
  - reflexivity.
  - reflexivity.
  - left; reflexivity.
  - reflexivity.
Defined.

(** C7: [select_file] with a path chosen stores the path and at once runs
    [update_temperature], so the label shows what a parse of the new file
    gives, whatever it showed before; and in every reachable world the label
    agrees with the last parse done, which read the current path (before any
    parse there is no path and the label shows two dashes). *)
Theorem select_file_refreshes :
  (forall w f, f <> "" ->
     file_path (self (run (select_file f) w)) = f
     /\ label_text (self (run (select_file f) w))
        = shown (value_of (fst (read_latest_temperature f w))))
  /\ (forall w h, reach w h -> display_ok w h).
Proof.
  split.
  - intros w f H. unfold run. rewrite (select_file_run _ _ H).
    rewrite Parser.read_latest_temperature_run. split; reflexivity.
  - intros w h H. now apply reach_invariant in H.
Qed.

(** After [two.txt] was shown, [short.txt] is selected. *)
Lemma select_file_refreshes_witness :
  label_text (self (run (select_file "two.txt") started)) = "20.50"
  /\ file_path (self (run (select_file "short.txt")
                          (run (select_file "two.txt") started))) = "short.txt"
  /\ label_text (self (run (select_file "short.txt")
                           (run (select_file "two.txt") started))) = "--".
Proof.
  split.
  - apply (proj1 select_file_refreshes started "two.txt"). discriminate.
  - apply (proj1 select_file_refreshes
             (run (select_file "two.txt") started) "short.txt").
    discriminate.
Defined.

(** C10: every run of [update_temperature] with a path set, and so every
    file selection and every manual refresh with a path set, adds one
    pending timer; a timer that fires is replaced by the one its own run
    schedules; no event lowers the number of pending timers; and every
    number of pending timers is reached. *)
Theorem timer_chains_accumulate :
  (forall w, file_path (self w) <> "" ->
     armed (run update_temperature w) = S (armed w))
  /\ (forall w f, f <> "" -> armed (run (select_file f) w) = S (armed w))
  /\ (forall w w', reachable w -> file_path (self w) <> "" ->
        fire MenuUpdateTemperature w = Some w' -> armed w' = S (armed w))
  /\ (forall w k w', reachable w ->
        fire (TimerFires k) w = Some w' -> armed w' = armed w)
  /\ (forall w ev w', reachable w ->
        fire ev w = Some w' -> (armed w <= armed w')%nat)
  /\ (forall n, exists w, reachable w /\ armed w = n).
Proof.
  assert (U : forall w, file_path (self w) <> "" ->
                armed (run update_temperature w) = S (armed w)).
  { intros w H. unfold run. rewrite (update_temperature_run _ H).
    apply armed_refreshed. }
  assert (S_ : forall w f, f <> "" -> armed (run (select_file f) w) = S (armed w)).
  { intros w f H. unfold run. rewrite (select_file_run _ _ H).
    exact (armed_refreshed (set_self (with_file_path f (self w)) w)). }
  assert (T : forall w k w', reachable w ->
                fire (TimerFires k) w = Some w' -> armed w' = armed w).
  { intros w k w' [h R] E. simpl in E.
    destruct (nth_error (timers w) k) as [[due cb]|] eqn:Hk; [|discriminate].
    destruct (due <=? clock w); [|discriminate]. injection E as <-.
    apply reach_invariant in R as [_ [_ [_ [R|R]]]];
      [now apply nth_error_some_nonempty in Hk|].
    destruct cb. unfold call. rewrite U by exact R.
    unfold armed; simpl. now apply remove_nth_length in Hk. }
  conjs; auto.
  - intros w w' _ H E. injection E as <-. now apply U.
  - intros w ev w' R E.
    destruct ev as [f | | acts | c | k | ms | files]; simpl in E.
    + injection E as <-. destruct (is_empty f) eqn:Hf.
      * apply StrFacts.is_empty_true in Hf. subst f. apply le_n.
      * apply StrFacts.is_empty_false in Hf. rewrite (S_ _ _ Hf). lia.
    + injection E as <-. destruct (is_empty (file_path (self w))) eqn:Hf.
      * apply StrFacts.is_empty_true in Hf. unfold run.
        rewrite (update_temperature_no_path _ Hf). apply le_n.
      * apply StrFacts.is_empty_false in Hf. rewrite (U _ Hf). lia.
    + injection E as <-.
      destruct (change_font_size_frame acts w) as [_ [_ [_ [_ [E _]]]]].
      unfold armed. rewrite E. apply le_n.
    + injection E as <-.
      destruct (change_bg_color_frame c w) as [_ [_ [_ [_ [E _]]]]].
      unfold armed. rewrite E. apply le_n.
    + rewrite (T _ _ _ R E). apply le_n.
    + destruct (0 <=? ms); [|discriminate]. injection E as <-. apply le_n.
    + injection E as <-. apply le_n.
  - induction n as [|n [w [R E]]].
    + exists started. split; [apply reachable_started|reflexivity].
    + exists (run (select_file "one.txt") w). split.
      * apply (reachable_fire w (MenuSelectFile "one.txt")); [exact R|reflexivity].
      * rewrite S_ by discriminate. now rewrite E.
Qed.

(** Two file selections and a manual refresh leave three timers pending;
    letting one of them fire leaves three again. *)
Lemma timer_chains_accumulate_witness :
  armed (run update_temperature
           (run (select_file "two.txt") (run (select_file "one.txt") started)))
  = S (armed (run (select_file "two.txt") (run (select_file "one.txt") started)))
  /\ armed (run (select_file "two.txt") (run (select_file "one.txt") started))
     = S (armed (run (select_file "one.txt") started))
  /\ armed (run (select_file "one.txt") started) = 1%nat.
Proof.
  conjs.
  - apply (proj1 timer_chains_accumulate). simpl; discriminate.
  - apply (proj1 (proj2 timer_chains_accumulate)). discriminate.
  - apply (proj1 (proj2 timer_chains_accumulate) started). discriminate.
Defined.

End Scheduler.

(** ** The style setters: [change_font_size] *)

Module Style.
Import PyStr Py App Obs Steps.

(** C8: when no OK press of the font-size dialog carries a positive integer
    (each is zero, negative or no integer), [change_font_size] leaves the
    stored font size and the label font as they were; a zero or negative
    entry is answered by the warning [Too small] and nothing else; the
    stored font size is 10 at the start and positive in every reachable
    world. *)
Theorem font_size_stays_positive :
  (forall w acts, no_positive acts = true ->
     font_size (self (run (change_font_size acts) w)) = font_size (self w)
     /\ label_font (self (run (change_font_size acts) w)) = label_font (self w))
  /\ (forall w v, v <= 0 ->
        change_font_size [PressOk (Some v)] w
        = (Ok tt,
           add_boxes [mkBox WARNING "Too small"
                        "The allowed minimum value is 1. Please try again."] w))
  /\ (forall files colors, font_size (self (init files colors)) = 10)
  /\ (forall w, reachable w -> 0 < font_size (self w)).
Proof.
  conjs.
  - intros w acts H.
    destruct (change_font_size_run acts w) as [r [bs [_ [_ [Hn E]]]]].
    unfold run. rewrite E, (Hn H). split; reflexivity.
  - intros w v H. unfold change_font_size, bind at 1.
    rewrite askinteger_too_small by (apply Z.ltb_lt; lia).
    simpl. now rewrite add_boxes_nil || reflexivity.
  - reflexivity.
  - intros w [h R]. now apply reach_invariant in R.
Qed.

(** Zero, then a negative number, then text that is no integer, then
    cancel: the size stays 10; and after a further dialog that accepts 14
    the size is positive. *)
Lemma font_size_stays_positive_witness :
  font_size (self (run (change_font_size
      [PressOk (Some 0); PressOk (Some (-3)); PressOk None; PressCancel])
      started)) = 10
  /\ 0 < font_size (self (run (change_font_size [PressOk (Some 0); PressOk (Some 14)])
                               started)).
Proof.
  split.
  - apply (proj1 font_size_stays_positive started). reflexivity.
  - apply (proj2 (proj2 (proj2 font_size_stays_positive))).
    apply (Scheduler.reachable_fire started
             (MenuChangeFontSize [PressOk (Some 0); PressOk (Some 14)])).
    + apply Scheduler.reachable_started.
    + reflexivity.
Defined.

End Style.

(** ** The text on the label *)

Module Display.
Import PyStr PyFloat Py App Obs Extra Steps.

Lemma digits_value_app a : forall acc b,
  digits_value acc (a ++ b) = digits_value (digits_value acc a) b.
Proof. induction a as [|c a IH]; intros; simpl; [reflexivity|apply IH]. Qed.

Lemma all_digits_uint d : all_digits (NilEmpty.string_of_uint d) = true.
Proof. induction d; simpl; auto. Qed.

Lemma digits_value_uint_acc d : forall acc,
  digits_value (Zpos acc) (NilEmpty.string_of_uint d)
  = Zpos (Pos.of_uint_acc d acc).
Proof.
  induction d; intros acc;
    cbn [NilEmpty.string_of_uint digits_value Pos.of_uint_acc];
    try reflexivity;
    rewrite <- IHd; f_equal; unfold digit_value, code; cbn [N_of_ascii N_of_digits]; lia.
Qed.

Lemma digits_value_uint d :
  digits_value 0 (NilEmpty.string_of_uint d) = Z.of_N (Pos.of_uint d).
Proof.
  induction d;
    cbn [NilEmpty.string_of_uint digits_value Pos.of_uint];
    try reflexivity; try exact IHd;
    cbn [N.of_nat Z.of_N]; rewrite <- digits_value_uint_acc; reflexivity.
Qed.

Lemma digits_value_NilZero d :
  digits_value 0 (NilZero.string_of_uint d) = Z.of_N (Pos.of_uint d).
Proof. destruct d; try reflexivity; apply digits_value_uint. Qed.

(** Reading back the decimal digits of a number gives the number. *)
Lemma decimal_digits_value n : 0 <= n -> digits_value 0 (decimal_digits n) = n.
Proof.
  intros H. unfold decimal_digits. rewrite digits_value_NilZero.
  change (Pos.of_uint (N.to_uint (Z.to_N n))) with (N.of_uint (N.to_uint (Z.to_N n))).
  rewrite DecimalN.Unsigned.of_to. now apply Z2N.id.
Qed.

Lemma decimal_digits_shape n :
  decimal_digits n <> "" /\ all_digits (decimal_digits n) = true.
Proof.
  unfold decimal_digits. destruct (N.to_uint (Z.to_N n)) as [|d|d|d|d|d|d|d|d|d|d];
    (split; [discriminate|]); try reflexivity;
    apply (all_digits_uint (Decimal.D0 d)) || apply (all_digits_uint (Decimal.D1 d))
    || apply (all_digits_uint (Decimal.D2 d)) || apply (all_digits_uint (Decimal.D3 d))
    || apply (all_digits_uint (Decimal.D4 d)) || apply (all_digits_uint (Decimal.D5 d))
    || apply (all_digits_uint (Decimal.D6 d)) || apply (all_digits_uint (Decimal.D7 d))
    || apply (all_digits_uint (Decimal.D8 d)) || apply (all_digits_uint (Decimal.D9 d)).
Qed.

Lemma one_digit k :
  0 <= k <= 9 -> exists c, isdigit c = true /\ decimal_digits k = String c "".
Proof.
  intros H.
  assert (E : k = 0 \/ k = 1 \/ k = 2 \/ k = 3 \/ k = 4 \/ k = 5 \/ k = 6
              \/ k = 7 \/ k = 8 \/ k = 9) by lia.
  repeat (destruct E as [-> | E]); try subst k;
    eexists; (split; [|reflexivity]); reflexivity.
Qed.

Lemma div_half_even_close n d :
  0 <= n -> 0 < d ->
  0 <= div_half_even n d /\ 2 * Z.abs (div_half_even n d * d - n) <= d.
Proof.
  intros Hn Hd. unfold div_half_even.
  pose proof (Z.div_mod n d ltac:(lia)) as E.
  pose proof (Z.mod_pos_bound n d Hd) as B.
  pose proof (Z.div_pos n d Hn Hd) as Q.
  destruct (Z.compare_spec (2 * (n mod d)) d) as [C|C|C].
  - destruct (Z.even (n / d)); split; nia.
  - split; nia.
  - split; nia.
Qed.

Lemma hundredths_rounds s m e :
  rounds_to_hundredths (S754_finite s m e) (hundredths m e).
Proof.
  unfold rounds_to_hundredths, hundredths.
  destruct (0 <=? e) eqn:He.
  - apply Z.leb_le in He. split; [|reflexivity].
    pose proof (Z.pow_nonneg 2 e ltac:(lia)). nia.
  - apply Z.leb_gt in He.
    assert (0 < 2 ^ (- e)) by (apply Z.pow_pos_nonneg; lia).
    destruct (div_half_even_close (Zpos m * 100) (2 ^ (- e)) ltac:(lia) ltac:(lia)).
    split; assumption.
Qed.

Lemma fixed2_shape neg h :
  0 <= h ->
  exists ip d1 d2,
    fixed2 neg h
    = (if neg then "-" else "") ++ ip ++ "." ++ String d1 (String d2 "")
    /\ ip <> "" /\ all_digits ip = true
    /\ isdigit d1 = true /\ isdigit d2 = true
    /\ digits_value 0 (ip ++ String d1 (String d2 "")) = h.
Proof.
  intros H.
  destruct (one_digit (h mod 100 / 10)) as [c1 [D1 E1]].
  { Z.to_euclidean_division_equations; lia. }
  destruct (one_digit (h mod 10)) as [c2 [D2 E2]].
  { pose proof (Z.mod_pos_bound h 10 ltac:(lia)). lia. }
  destruct (decimal_digits_shape (h / 100)) as [Hne Hall].
  exists (decimal_digits (h / 100)), c1, c2.
  conjs; auto.
  - unfold fixed2. now rewrite E1, E2.
  - rewrite digits_value_app, decimal_digits_value by (apply Z.div_pos; lia).
    cbn [digits_value].
    pose proof (decimal_digits_value (h mod 100 / 10)) as V1.
    pose proof (decimal_digits_value (h mod 10)) as V2.
    rewrite E1 in V1. rewrite E2 in V2. cbn [digits_value] in V1, V2.
    specialize (V1 ltac:(Z.to_euclidean_division_equations; lia)).
    specialize (V2 ltac:(Z.to_euclidean_division_equations; lia)).
    Z.to_euclidean_division_equations; lia.
Qed.

(** X1: after [update_temperature] read a float that is neither an infinity
    nor a NaN, the label shows a minus sign when the float carries one, then
    at least one decimal digit, a point and exactly two decimal digits; read
    as a number of hundredths, these digits are the magnitude of the float
    rounded to two decimals, off by at most half a hundredth. *)
Theorem label_shows_two_decimals w x :
  file_path (self w) <> "" ->
  fst (read_latest_temperature (file_path (self w)) w) = Ok (Some x) ->
  is_finite x = true ->
  exists ip d1 d2,
    label_text (self (run update_temperature w))
    = (if sign_bit x then "-" else "") ++ ip ++ "." ++ String d1 (String d2 "")
    /\ ip <> "" /\ all_digits ip = true
    /\ isdigit d1 = true /\ isdigit d2 = true
    /\ rounds_to_hundredths x (digits_value 0 (ip ++ String d1 (String d2 ""))).
Proof.
  intros Hp Hr Hf. unfold run. rewrite (update_temperature_run _ Hp).
  rewrite Parser.read_latest_temperature_run in Hr. simpl in Hr.
  injection Hr as Hr.
  change (label_text (self (snd (Ok tt, refreshed w))))
    with (shown (fst (outcome (fs w (file_path (self w)))))).
  rewrite Hr. cbn [shown].
  destruct x as [s|s| |s m e]; try discriminate; cbn [format_2f sign_bit].
  - destruct (fixed2_shape s 0 ltac:(lia)) as [ip [d1 [d2 [E [H1 [H2 [H3 [H4 H5]]]]]]]].
    exists ip, d1, d2. rewrite H5. conjs; auto. reflexivity.
  - pose proof (hundredths_rounds s m e) as R.
    assert (0 <= hundredths m e) by (destruct R; assumption).
    destruct (fixed2_shape s (hundredths m e) ltac:(assumption))
      as [ip [d1 [d2 [E [H1 [H2 [H3 [H4 H5]]]]]]]].
    exists ip, d1, d2. rewrite H5. conjs; auto.
Qed.

(** The file [one.txt] holds [a;b;12.34]: the label shows [12.34]. *)
Lemma label_shows_two_decimals_witness :
  exists ip d1 d2,
    label_text (self (run update_temperature (chosen "one.txt")))
    = "" ++ ip ++ "." ++ String d1 (String d2 "")
    /\ ip <> "" /\ all_digits ip = true
    /\ isdigit d1 = true /\ isdigit d2 = true
    /\ rounds_to_hundredths (S754_finite false 6946802425218990 (-49))
         (digits_value 0 (ip ++ String d1 (String d2 ""))).
Proof.
  apply (label_shows_two_decimals (chosen "one.txt")
           (S754_finite false 6946802425218990 (-49))).
  - simpl; discriminate.
  - reflexivity.
  - reflexivity.
Defined.

(** The label never shows two dashes for a float. *)
Lemma format_2f_not_dashes x : format_2f x <> "--".
Proof.
  destruct x as [s|s| |s m e]; cbn [format_2f].
  - destruct (fixed2_shape s 0 ltac:(lia)) as [ip [d1 [d2 [E [H1 [H2 _]]]]]].
    rewrite E. destruct ip as [|c ip]; [congruence|].
    simpl in H2. apply andb_true_iff in H2 as [H2 _].
    destruct s; simpl; intros F; injection F as F; subst; discriminate.
  - destruct s; discriminate.
  - discriminate.
  - pose proof (hundredths_rounds s m e) as R.
    assert (0 <= hundredths m e) by (destruct R; assumption).
    destruct (fixed2_shape s (hundredths m e) ltac:(assumption))
      as [ip [d1 [d2 [E [H1 [H2 _]]]]]].
    rewrite E. destruct ip as [|c ip]; [congruence|].
    simpl in H2. apply andb_true_iff in H2 as [H2 _].
    destruct s; simpl; intros F; injection F as F; subst; discriminate.
Qed.

End Display.

(** ** What a refresh and a parse leave behind *)

Module Refresh.
Import PyStr PyFloat Py App Obs Extra Steps.

Lemma outcome_lines n :
  (exists x, outcome n = (Some x, []))
  \/ (exists line, outcome n = (None, [line])).
Proof.
  destruct n as [e|e|text]; simpl; try (right; eexists; reflexivity).
  unfold parse_text. destruct (readlines text); [right; eexists; reflexivity|].
  cbv zeta. destruct (_ =? 3)%nat; [|right; eexists; reflexivity].
  destruct (float_of_str _); [left|right]; eexists; reflexivity.
Qed.

(** X2: [read_latest_temperature] prints nothing when it returns a float
    and exactly one line when it returns [None]. *)
Theorem read_latest_temperature_prints_on_failure_only file w :
  (exists x, read_latest_temperature file w = (Ok (Some x), w))
  \/ (exists line, read_latest_temperature file w = (Ok None, emit [line] w)).
Proof.
  rewrite Parser.read_latest_temperature_run.
  destruct (outcome_lines (fs w file)) as [[x E]|[line E]]; rewrite E; simpl.
  - left. exists x. now rewrite Parser.emit_nil.
  - right. exists line. reflexivity.
Qed.

(** X3: after [update_temperature] ran with a path set, the label shows two
    dashes exactly when the parse failed, and exactly then one error box
    [Failed to read temperature data.] was added; after a parse that
    succeeded no box was added. *)
Theorem failed_refresh_is_visible w :
  file_path (self w) <> "" ->
  let r := value_of (fst (read_latest_temperature (file_path (self w)) w)) in
  let w' := run update_temperature w in
  (label_text (self w') = "--" <-> r = None)
  /\ (r = None -> boxes w' = (boxes w ++ [failed_box])%list)
  /\ (r <> None -> boxes w' = boxes w).
Proof.
  intros Hp. cbv zeta. unfold run. rewrite (update_temperature_run _ Hp).
  rewrite Parser.read_latest_temperature_run. cbn [fst snd value_of].
  unfold refreshed. cbn [self boxes label_text with_label_text].
  destruct (fst (outcome (fs w (file_path (self w))))) as [x|]; cbn [shown].
  - conjs.
    + split; [intros H; now apply Display.format_2f_not_dashes in H | discriminate].
    + discriminate.
    + reflexivity.
  - conjs.
    + split; reflexivity.
    + reflexivity.
    + congruence.
Qed.

(** A refresh on [text.txt] (third field [xyz]) and one on [one.txt]. *)
Lemma failed_refresh_is_visible_witness :
  (label_text (self (run update_temperature (chosen "text.txt"))) = "--"
   <-> value_of (fst (read_latest_temperature "text.txt" (chosen "text.txt"))) = None)
  /\ boxes (run update_temperature (chosen "one.txt")) = [].
Proof.
  split.
  - apply (proj1 (failed_refresh_is_visible (chosen "text.txt")
                    ltac:(simpl; discriminate))).
  - apply (proj2 (proj2 (failed_refresh_is_visible (chosen "one.txt")
                    ltac:(simpl; discriminate)))).
    simpl; discriminate.
Defined.

End Refresh.

(** ** Which part of the file decides the result *)

Module Lines.
Import PyStr PyFloat Py App Obs Extra Steps.

Lemma append_nil_r s : s ++ "" = s.
Proof. induction s as [|c s IH]; simpl; [reflexivity|now rewrite IH]. Qed.

Lemma one_line_tail l tail :
  nobreak l = true -> l <> "" -> tail = "" \/ tail = NL ->
  universal_newlines (l ++ tail) = l ++ tail
  /\ lines_keepends (l ++ tail) = [l ++ tail].
Proof.
  intros Hl Hne [-> | ->].
  - rewrite append_nil_r. now apply StrFacts.one_line.
  - now apply StrFacts.one_line_LF.
Qed.

(** The last line of a text that ends in the line [l], with or without its
    line feed, after nothing or after a line feed. *)
Lemma last_line_of pre l tail :
  pre = "" \/ (exists before, pre = before ++ NL) ->
  nobreak l = true -> l <> "" -> tail = "" \/ tail = NL ->
  readlines (pre ++ l ++ tail) <> []
  /\ last (readlines (pre ++ l ++ tail)) "" = l ++ tail.
Proof.
  intros Hpre Hl Hne Ht.
  destruct (one_line_tail l tail Hl Hne Ht) as [Hu Hk].
  destruct Hpre as [-> | [before ->]].
  - simpl. unfold readlines. rewrite Hu, Hk. split; [discriminate|reflexivity].
  - rewrite StrFacts.append_assoc.
    exact (StrFacts.readlines_last before (l ++ tail) Hu Hk).
Qed.

(** Two texts with lines whose last lines strip to the same string are
    parsed alike. *)
Lemma parse_text_by_last_line t1 t2 :
  readlines t1 <> [] -> readlines t2 <> [] ->
  strip (last (readlines t1) "") = strip (last (readlines t2) "") ->
  parse_text t1 = parse_text t2.
Proof.
  intros H1 H2 E.
  rewrite (Parser.parse_text_fields _ H1), (Parser.parse_text_fields _ H2).
  cbv zeta. now rewrite E.
Qed.

Lemma read_by_outcome file w file' w' t t' :
  fs w file = Contents t -> fs w' file' = Contents t' ->
  parse_text t = parse_text t' ->
  fst (read_latest_temperature file w) = fst (read_latest_temperature file' w')
  /\ stdout (snd (read_latest_temperature file w))
     = (stdout w ++ snd (parse_text t'))%list.
Proof.
  intros H H' E. rewrite !Parser.read_latest_temperature_run, H, H'. simpl.
  now rewrite E.
Qed.

(** X4: whatever stands before the last line feed that is followed by a
    non-empty line has no part in the result: the file is parsed as the
    file that holds that last line alone. *)
Theorem earlier_lines_are_ignored file w file' w' before l tail :
  nobreak l = true -> l <> "" -> tail = "" \/ tail = NL ->
  fs w file = Contents (before ++ NL ++ l ++ tail) ->
  fs w' file' = Contents (l ++ tail) ->
  fst (read_latest_temperature file w) = fst (read_latest_temperature file' w').
Proof.
  intros Hl Hne Ht H H'.
  refine (proj1 (read_by_outcome _ _ _ _ _ _ H H' _)).
  destruct (last_line_of (before ++ NL) l tail
              (or_intror (ex_intro _ before eq_refl)) Hl Hne Ht) as [N1 L1].
  destruct (last_line_of "" l tail (or_introl eq_refl) Hl Hne Ht) as [N2 L2].
  rewrite StrFacts.append_assoc in N1, L1.
  apply parse_text_by_last_line; auto.
  simpl in L2. now rewrite L1, L2.
Qed.

(** The two-line file [two.txt] is parsed as its second line alone. *)
Lemma earlier_lines_are_ignored_witness :
  fst (read_latest_temperature "two.txt" started)
  = fst (read_latest_temperature "last.txt"
           (with_files (fun _ => Contents "...;...;20.5") started)).
Proof.
  apply (earlier_lines_are_ignored "two.txt" started "last.txt"
           (with_files (fun _ => Contents "...;...;20.5") started)
           "...;...;10.0" "...;...;20.5" "").
  - reflexivity.
  - discriminate.
  - left; reflexivity.
  - reflexivity.
  - reflexivity.
Defined.

Section LstripFacts.
Variable sp : ascii -> bool.

Lemma lstrip_by_all_blank l t :
  lstrip_by sp l = "" -> lstrip_by sp (l ++ t) = lstrip_by sp t.
Proof.
  induction l as [|c l IH]; simpl; [reflexivity|].
  destruct (sp c); [exact IH|discriminate].
Qed.

Lemma lstrip_by_some l t :
  lstrip_by sp l <> "" -> lstrip_by sp (l ++ t) = lstrip_by sp l ++ t.
Proof.
  induction l as [|c l IH]; simpl; [congruence|].
  destruct (sp c); [exact IH|reflexivity].
Qed.

Lemma rstrip_by_empty_lstrip t :
  rstrip_by sp t = "" -> rstrip_by sp (lstrip_by sp t) = "".
Proof.
  induction t as [|c t IH]; simpl; [reflexivity|].
  destruct (rstrip_by sp t) eqn:E; [|discriminate].
  destruct (sp c) eqn:Hc; [intros _; now apply IH|discriminate].
Qed.

(** White space after a string does not change what stripping leaves. *)
Lemma strip_by_app_blank l t :
  rstrip_by sp t = "" -> strip_by sp (l ++ t) = strip_by sp l.
Proof.
  intros Ht. unfold strip_by.
  destruct (lstrip_by sp l) eqn:E.
  - rewrite lstrip_by_all_blank by exact E. simpl.
    now apply rstrip_by_empty_lstrip.
  - rewrite lstrip_by_some by (rewrite E; discriminate).
    rewrite E. now apply StrFacts.rstrip_by_blank.
Qed.
End LstripFacts.

(** X5: the line feed at the end of the last line is optional: a file that
    ends in a non-empty line is parsed the same with and without a final
    line feed, and prints the same. *)
Theorem final_line_feed_is_optional file w file' w' pre l :
  pre = "" \/ (exists before, pre = before ++ NL) ->
  nobreak l = true -> l <> "" ->
  fs w file = Contents (pre ++ l ++ NL) ->
  fs w' file' = Contents (pre ++ l) ->
  fst (read_latest_temperature file w) = fst (read_latest_temperature file' w')
  /\ (exists lines,
        stdout (snd (read_latest_temperature file w)) = (stdout w ++ lines)%list
        /\ stdout (snd (read_latest_temperature file' w')) = (stdout w' ++ lines)%list).
Proof.
  intros Hpre Hl Hne H H'.
  destruct (last_line_of pre l NL Hpre Hl Hne (or_intror eq_refl)) as [N1 L1].
  destruct (last_line_of pre l "" Hpre Hl Hne (or_introl eq_refl)) as [N2 L2].
  rewrite append_nil_r in N2, L2.
  assert (E : parse_text (pre ++ l ++ NL) = parse_text (pre ++ l)).
  { apply parse_text_by_last_line; auto.
    rewrite L1, L2. unfold strip.
    now rewrite strip_by_app_blank. }
  split.
  - exact (proj1 (read_by_outcome _ _ _ _ _ _ H H' E)).
  - exists (snd (parse_text (pre ++ l))). split.
    + exact (proj2 (read_by_outcome _ _ _ _ _ _ H H' E)).
    + rewrite Parser.read_latest_temperature_run, H'. reflexivity.
Qed.

(** [one.txt] holds [a;b;12.34] without a line feed. *)
Lemma final_line_feed_is_optional_witness :
  fst (read_latest_temperature "fed.txt"
         (with_files (fun _ => Contents ("a;b;12.34" ++ NL)) started))
  = fst (read_latest_temperature "one.txt" started).
Proof.
  apply (final_line_feed_is_optional "fed.txt"
           (with_files (fun _ => Contents ("a;b;12.34" ++ NL)) started)
           "one.txt" started "" "a;b;12.34").
  - left; reflexivity.
  - reflexivity.
  - discriminate.
  - reflexivity.
  - reflexivity.
Defined.

Lemma no_CR_universal_newlines s :
  no_CR s = true -> universal_newlines s = s.
Proof.
  induction s as [|c s IH]; simpl; [reflexivity|].
  intros H. apply andb_true_iff in H as [Hc Hs].
  apply negb_true_iff in Hc. now rewrite Hc, IH.
Qed.

Lemma universal_newlines_crlf s :
  no_CR s = true -> universal_newlines (crlf s) = s.
Proof.
  induction s as [|c s IH]; simpl; [reflexivity|].
  intros H. apply andb_true_iff in H as [Hc Hs].
  apply negb_true_iff in Hc.
  destruct (Ascii.eqb c LF) eqn:Hl.
  - apply Ascii.eqb_eq in Hl. subst c. simpl. now rewrite IH.
  - simpl. now rewrite Hc, IH.
Qed.

(** X6: line ends written as carriage return and line feed make no
    difference: the file is read as the same lines, so the call returns and
    prints the same. *)
Theorem crlf_file_is_read_alike file w file' w' text :
  no_CR text = true ->
  fs w file = Contents (crlf text) ->
  fs w' file' = Contents text ->
  readlines (crlf text) = readlines text
  /\ fst (read_latest_temperature file w) = fst (read_latest_temperature file' w')
  /\ stdout (snd (read_latest_temperature file w))
     = (stdout w ++ snd (parse_text text))%list.
Proof.
  intros Hc H H'.
  assert (R : readlines (crlf text) = readlines text).
  { unfold readlines.
    now rewrite universal_newlines_crlf, no_CR_universal_newlines. }
  split; [exact R|].
  apply (read_by_outcome _ _ _ _ _ _ H H').
  unfold parse_text. now rewrite R.
Qed.

(** The two lines of [two.txt] with Windows line ends. *)
Lemma crlf_file_is_read_alike_witness :
  fst (read_latest_temperature "dos.txt"
         (with_files
            (fun _ => Contents ("...;...;10.0" ++ String CR NL ++ "...;...;20.5"))
            started))
  = fst (read_latest_temperature "two.txt" started).
Proof.
  apply (proj2 (crlf_file_is_read_alike "dos.txt"
           (with_files
              (fun _ => Contents ("...;...;10.0" ++ String CR NL ++ "...;...;20.5"))
              started)
           "two.txt" started ("...;...;10.0" ++ NL ++ "...;...;20.5")
           eq_refl eq_refl eq_refl)).
Defined.

Lemma split_length s :
  List.length (split ";" s) = S (count_char ";" s).
Proof.
  induction s as [|c s IH]; [reflexivity|].
  cbn [split count_char]. destruct (Ascii.eqb c ";").
  - simpl. now rewrite IH.
  - destruct (split ";" s) as [|p ps]; simpl in *; [discriminate|exact IH].
Qed.

(** X7: for a readable file with at least one line, the parse fails with
    [No valid lines found in the file.] exactly when the stripped last line
    does not hold exactly two semicolons. *)
Theorem malformed_iff_not_two_semicolons file w text :
  fs w file = Contents text -> readlines text <> [] ->
  (read_latest_temperature file w
   = (Ok None, emit ["No valid lines found in the file."] w)
   <-> count_char ";" (strip (last (readlines text) "")) <> 2%nat).
Proof.
  intros H Hl. rewrite Parser.read_latest_temperature_run, H. cbn [outcome].
  rewrite (Parser.parse_text_fields _ Hl). cbv zeta.
  rewrite split_length.
  destruct (Nat.eqb_spec (S (count_char ";" (strip (last (readlines text) "")))) 3)
    as [E|E].
  - split; [|lia]. intros F.
    destruct (float_of_str _); cbn [fst snd] in F.
    + discriminate.
    + injection F as F. apply app_inv_head in F. discriminate.
  - split; [lia|reflexivity].
Qed.

(** [short.txt] ends in [a;b], which holds one semicolon. *)
Lemma malformed_iff_not_two_semicolons_witness :
  read_latest_temperature "short.txt" started
  = (Ok None, emit ["No valid lines found in the file."] started).
Proof.
  apply (proj2 (malformed_iff_not_two_semicolons "short.txt" started "a;b"
                  eq_refl ltac:(vm_compute; discriminate))).
  vm_compute; discriminate.
Defined.

End Lines.

(** ** Which part of the last line decides the result *)

Module Fields.
Import PyStr PyFloat Py App Obs Extra Steps.

(** What the text of a file gives when its last line holds three plain
    fields: [float] of the third field decides alone. *)
Lemma parse_text_of_fields pre a b v tail :
  pre = "" \/ (exists before, pre = before ++ NL) ->
  plain a = true -> plain b = true -> plain v = true ->
  rstrip_by isspace v = v -> v <> "" -> tail = "" \/ tail = NL ->
  parse_text (pre ++ a ++ ";" ++ b ++ ";" ++ v ++ tail)
  = match float_of_str v with
    | Some x => (Some x, [])
    | None => (None, ["Invalid temperature value: " ++ v])
    end.
Proof.
  intros Hpre Ha Hb Hv Hr Hne Ht.
  destruct (StrFacts.line_of_fields a b v tail Ha Hb Hv Hne Ht) as [Hu Hk].
  assert (L : readlines (pre ++ a ++ ";" ++ b ++ ";" ++ v ++ tail) <> []
              /\ last (readlines (pre ++ a ++ ";" ++ b ++ ";" ++ v ++ tail)) ""
                 = a ++ ";" ++ b ++ ";" ++ v ++ tail).
  { destruct Hpre as [-> | [before ->]].
    - change ("" ++ a ++ ";" ++ b ++ ";" ++ v ++ tail)
        with (a ++ ";" ++ b ++ ";" ++ v ++ tail).
      unfold readlines. rewrite Hu, Hk. split; [discriminate|reflexivity].
    - rewrite StrFacts.append_assoc.
      exact (StrFacts.readlines_last before _ Hu Hk). }
  destruct L as [N L].
  rewrite (Parser.parse_text_fields _ N). cbv zeta. rewrite L.
  rewrite (StrFacts.fields_of_line a b v tail Ha Hb Hv Hr Hne)
    by (destruct Ht as [-> | ->]; reflexivity).
  reflexivity.
Qed.

(** X8: the first two fields of the last line are never looked at: two
    files whose last lines hold three plain fields with the same third
    field give the same result and the same printed lines, whatever the
    first two fields and the earlier lines are. *)
Theorem first_two_fields_are_ignored
    file w file' w' pre a b tail pre' a' b' tail' v :
  pre = "" \/ (exists before, pre = before ++ NL) ->
  pre' = "" \/ (exists before, pre' = before ++ NL) ->
  plain a = true -> plain b = true ->
  plain a' = true -> plain b' = true ->
  plain v = true -> rstrip_by isspace v = v -> v <> "" ->
  tail = "" \/ tail = NL -> tail' = "" \/ tail' = NL ->
  fs w file = Contents (pre ++ a ++ ";" ++ b ++ ";" ++ v ++ tail) ->
  fs w' file' = Contents (pre' ++ a' ++ ";" ++ b' ++ ";" ++ v ++ tail') ->
  fst (read_latest_temperature file w) = fst (read_latest_temperature file' w')
  /\ (exists lines,
        stdout (snd (read_latest_temperature file w)) = (stdout w ++ lines)%list
        /\ stdout (snd (read_latest_temperature file' w')) = (stdout w' ++ lines)%list).
Proof.
  intros Hp Hp' Ha Hb Ha' Hb' Hv Hr Hne Ht Ht' H H'.
  rewrite !Parser.read_latest_temperature_run, H, H'. cbn [outcome].
  rewrite (parse_text_of_fields pre a b v tail), (parse_text_of_fields pre' a' b' v tail')
    by assumption.
  split; [reflexivity|]. eexists. split; reflexivity.
Qed.

(** The last line of [two.txt] against a line with a date and a time. *)
Lemma first_two_fields_are_ignored_witness :
  fst (read_latest_temperature "two.txt" started)
  = fst (read_latest_temperature "dated.txt"
           (with_files (fun _ => Contents ("2024-10-20;12:00:00;20.5" ++ NL)) started)).
Proof.
  apply (first_two_fields_are_ignored "two.txt" started "dated.txt"
           (with_files (fun _ => Contents ("2024-10-20;12:00:00;20.5" ++ NL)) started)
           ("...;...;10.0" ++ NL) "..." "..." ""
           "" "2024-10-20" "12:00:00" NL "20.5").
  - right. exists "...;...;10.0". reflexivity.
  - left; reflexivity.
  - reflexivity.
  - reflexivity.
  - reflexivity.
  - reflexivity.
  - reflexivity.
  - reflexivity.
  - discriminate.
  - left; reflexivity.
  - right; reflexivity.
  - reflexivity.
  - reflexivity.
Defined.

Lemma c_isspace_codes c :
  c_isspace c = true ->
  to_ascii_char c = c /\ isdigit c = false /\ Ascii.eqb c "_" = false
  /\ isspace c = true.
Proof.
  unfold c_isspace, to_ascii_char, isdigit, isspace, in_range. intros H.
  assert (B : (9 <= code c <= 13 \/ code c = 32)%N).
  { apply orb_true_iff in H as [H|H].
    - apply andb_true_iff in H as [H1 H2].
      apply N.leb_le in H1. apply N.leb_le in H2. lia.
    - apply N.eqb_eq in H. lia. }
  conjs.
  - destruct (N.ltb_spec (code c) 127); [reflexivity|lia].
  - apply andb_false_iff.
    destruct (N.leb_spec 48 (code c)); [right|left; reflexivity].
    apply N.leb_gt. lia.
  - destruct (Ascii.eqb_spec c "_") as [->|]; [|reflexivity].
    change (code "_") with 95%N in B. lia.
  - destruct B as [B|B].
    + apply orb_true_iff; left. apply orb_true_iff; left.
      apply orb_true_iff; left. apply andb_true_iff.
      split; apply N.leb_le; lia.
    + apply orb_true_iff; left. apply orb_true_iff; left.
      apply orb_true_iff; right. apply andb_true_iff.
      split; apply N.leb_le; lia.
Qed.

Lemma to_ascii_blanks ws s :
  all_c_space ws = true -> to_ascii (ws ++ s) = ws ++ to_ascii s.
Proof.
  induction ws as [|c ws IH]; simpl; [reflexivity|].
  intros H. apply andb_true_iff in H as [Hc Hw].
  destruct (c_isspace_codes c Hc) as [E _]. now rewrite E, IH.
Qed.

Lemma drop_underscores_prev p q s :
  isdigit p = false -> Ascii.eqb p "_" = false ->
  isdigit q = false -> Ascii.eqb q "_" = false ->
  drop_underscores p s = drop_underscores q s.
Proof.
  intros Hp Hp' Hq Hq'. destruct s as [|c r]; simpl.
  - now rewrite Hp', Hq'.
  - now rewrite Hp, Hp', Hq, Hq'.
Qed.

Lemma drop_underscores_blanks ws : forall p s,
  all_c_space ws = true ->
  isdigit p = false -> Ascii.eqb p "_" = false ->
  drop_underscores p (ws ++ s)
  = option_map (append ws) (drop_underscores p s).
Proof.
  induction ws as [|c ws IH]; intros p s H Hp Hp'.
  - simpl. now destruct (drop_underscores p s).
  - simpl in H. apply andb_true_iff in H as [Hc Hw].
    destruct (c_isspace_codes c Hc) as [_ [Hd [Hu _]]].
    cbn [append drop_underscores]. rewrite Hu, Hp'. cbn [andb].
    rewrite (IH c s Hw Hd Hu).
    rewrite (drop_underscores_prev c p s Hd Hu Hp Hp').
    now destruct (drop_underscores p s).
Qed.

Lemma lstrip_blanks ws s :
  all_c_space ws = true ->
  lstrip_by c_isspace (ws ++ s) = lstrip_by c_isspace s.
Proof.
  induction ws as [|c ws IH]; simpl; [reflexivity|].
  intros H. apply andb_true_iff in H as [Hc Hw]. now rewrite Hc, IH.
Qed.

(** [float] skips white space before the number. *)
Lemma float_of_str_blanks ws s :
  all_c_space ws = true -> float_of_str (ws ++ s) = float_of_str s.
Proof.
  intros H. unfold float_of_str.
  rewrite to_ascii_blanks by exact H.
  rewrite drop_underscores_blanks by (exact H || reflexivity).
  destruct (drop_underscores zero (to_ascii s)) as [t|]; [|reflexivity].
  cbn [option_map]. unfold float_from_string_inner, strip_by.
  now rewrite lstrip_blanks.
Qed.

Lemma plain_app a b : plain (a ++ b) = plain a && plain b.
Proof.
  induction a as [|c a IH]; simpl; [reflexivity|].
  now rewrite IH, andb_assoc.
Qed.

(** X9: blanks and tabs between the second semicolon and the number do not
    change the value returned: [float] skips them. *)
Theorem blanks_before_number_are_skipped
    file w file' w' pre a b ws v tail :
  pre = "" \/ (exists before, pre = before ++ NL) ->
  plain a = true -> plain b = true ->
  all_c_space ws = true -> plain ws = true ->
  plain v = true -> rstrip_by isspace v = v -> v <> "" ->
  tail = "" \/ tail = NL ->
  fs w file = Contents (pre ++ a ++ ";" ++ b ++ ";" ++ (ws ++ v) ++ tail) ->
  fs w' file' = Contents (pre ++ a ++ ";" ++ b ++ ";" ++ v ++ tail) ->
  fst (read_latest_temperature file w) = fst (read_latest_temperature file' w').
Proof.
  intros Hp Ha Hb Hw Hpw Hv Hr Hne Ht H H'.
  rewrite !Parser.read_latest_temperature_run, H, H'. cbn [outcome].
  rewrite (parse_text_of_fields pre a b v tail) by assumption.
  rewrite (parse_text_of_fields pre a b (ws ++ v) tail); try assumption.
  - rewrite float_of_str_blanks by exact Hw.
    now destruct (float_of_str v).
  - now rewrite plain_app, Hpw, Hv.
  - rewrite StrFacts.rstrip_by_app; rewrite Hr; [reflexivity|exact Hne].
  - destruct ws; [exact Hne|discriminate].
Qed.

(** A blank and a tab before [12.34]. *)
Lemma blanks_before_number_are_skipped_witness :
  fst (read_latest_temperature "spaced.txt"
         (with_files
            (fun _ => Contents ("a;b;" ++ String " " (String (ascii_of_N 9) "12.34")))
            started))
  = fst (read_latest_temperature "one.txt" started).
Proof.
  apply (blanks_before_number_are_skipped "spaced.txt"
           (with_files
              (fun _ => Contents ("a;b;" ++ String " " (String (ascii_of_N 9) "12.34")))
              started)
           "one.txt" started "" "a" "b"
           (String " " (String (ascii_of_N 9) "")) "12.34" "").
  - left; reflexivity.
  - reflexivity.
  - reflexivity.
  - reflexivity.
  - reflexivity.
  - reflexivity.
  - reflexivity.
  - discriminate.
  - left; reflexivity.
  - reflexivity.
  - reflexivity.
Defined.

End Fields.

(** ** The event loop, case by case *)

Module Loop.
Import PyStr PyFloat Py App Obs Extra Steps.

Lemma change_bg_color_run c w :
  change_bg_color c w
  = match c with
    | None => (Ok tt, w)
    | Some c =>
        if is_empty c then (Ok tt, w)
        else if tk_color w c then (Ok tt, set_self (bg_set c (self w)) w)
        else (Raise (mkExn TclError ("unknown color name " ++ c)),
              set_self (with_bg_color c (self w)) w)
    end.
Proof.
  destruct c as [c|]; [|reflexivity]. unfold change_bg_color.
  destruct (is_empty c); [reflexivity|]. cbn [negb].
  unfold bind, modify_self, get, config_bg. cbn.
  destruct (tk_color w c) eqn:E; cbn; rewrite ?E; reflexivity.
Qed.

(** Every event the loop handles has one of the effects listed. *)
Lemma fire_effect ev w w' : fire ev w = Some w' -> effect ev w w'.
Proof.
  destruct ev as [f | | acts | c | k | ms | files]; cbn [fire]; intros E.
  - injection E as <-. unfold run.
    destruct (is_empty f) eqn:Hf.
    + apply StrFacts.is_empty_true in Hf. subst f. apply eff_select_cancel.
    + apply StrFacts.is_empty_false in Hf. rewrite (select_file_run _ _ Hf).
      now apply eff_select.
  - injection E as <-. unfold run.
    destruct (is_empty (file_path (self w))) eqn:Hf.
    + apply StrFacts.is_empty_true in Hf.
      rewrite (update_temperature_no_path _ Hf). now apply eff_update_no_path.
    + apply StrFacts.is_empty_false in Hf.
      rewrite (update_temperature_run _ Hf). now apply eff_update.
  - injection E as <-. unfold run.
    destruct (change_font_size_run acts w) as [r [bs [_ [Hr [_ E]]]]].
    rewrite E. destruct r as [v|]; cbn [snd].
    + apply (eff_font_set acts bs v w). now apply Hr.
    + apply eff_font_keep.
  - injection E as <-. unfold run. rewrite change_bg_color_run.
    destruct c as [c|]; [|apply eff_bg_cancel].
    destruct (is_empty c) eqn:Hc.
    + apply StrFacts.is_empty_true in Hc. subst c. apply eff_bg_empty.
    + apply StrFacts.is_empty_false in Hc.
      destruct (tk_color w c) eqn:Hk; cbn [snd].
      * now apply eff_bg_set.
      * now apply eff_bg_refused.
  - destruct (nth_error (timers w) k) as [[due cb]|] eqn:Hk; [|discriminate].
    destruct (due <=? clock w) eqn:Hd; [|discriminate].
    injection E as <-. apply Z.leb_le in Hd. destruct cb.
    unfold run, call. fold (drop_timer k w).
    destruct (is_empty (file_path (self (drop_timer k w)))) eqn:Hf.
    + apply StrFacts.is_empty_true in Hf.
      rewrite (update_temperature_no_path _ Hf).
      now apply (eff_timer_no_path k due).
    + apply StrFacts.is_empty_false in Hf.
      rewrite (update_temperature_run _ Hf).
      now apply (eff_timer k due).
  - destruct (0 <=? ms) eqn:Hm; [|discriminate]. injection E as <-.
    apply Z.leb_le in Hm. now apply eff_time.
  - injection E as <-. apply eff_files.
Qed.

(** A property that holds at the start and that every effect keeps holds
    in every reachable world. *)
Lemma reachable_ind (P : world -> Prop) :
  (forall files colors, P (init files colors)) ->
  (forall ev w w', P w -> effect ev w w' -> P w') ->
  forall w, reachable w -> P w.
Proof.
  intros H0 Hs w [h R].
  induction R as [files colors | w h ev w' R IH E]; [apply H0|].
  apply (Hs ev w w' IH). now apply fire_effect.
Qed.

(** X10: the path changes only when a file is selected, and then to the
    file selected; no event clears a path once it is set. *)
Theorem path_changes_only_by_selection ev w w' :
  fire ev w = Some w' ->
  (file_path (self w') = file_path (self w)
   \/ (exists f, ev = MenuSelectFile f /\ f <> "" /\ file_path (self w') = f))
  /\ (file_path (self w) <> "" -> file_path (self w') <> "").
Proof.
  intros E. apply fire_effect in E.
  destruct E; cbn; try (split; [left; reflexivity | exact (fun H => H)]).
  split; [right; exists f; auto | auto].
Qed.

(** Selecting [short.txt] after [one.txt], and a timer firing later. *)
Lemma path_changes_only_by_selection_witness :
  file_path (self (run (select_file "short.txt")
                       (run (select_file "one.txt") started))) <> ""
  /\ (file_path (self (run (select_file "one.txt") started)) <> "" ->
      file_path (self (run update_temperature
                         (run (select_file "one.txt") started))) <> "").
Proof.
  split.
  - apply (proj2 (path_changes_only_by_selection (MenuSelectFile "short.txt")
                    (run (select_file "one.txt") started) _ eq_refl)).
    simpl; discriminate.
  - apply (proj2 (path_changes_only_by_selection MenuUpdateTemperature
                    (run (select_file "one.txt") started) _ eq_refl)).
Defined.

(** X11: an event that parses no file changes neither the text on the
    label nor the path nor the standard output. *)
Theorem label_changes_only_by_a_parse ev w w' :
  fire ev w = Some w' -> refresh_of ev w = None ->
  label_text (self w') = label_text (self w)
  /\ file_path (self w') = file_path (self w)
  /\ stdout w' = stdout w.
Proof.
  intros E R. apply fire_effect in E.
  destruct E; cbn in *; try (conjs; reflexivity).
  - apply StrFacts.is_empty_false in H. rewrite H in R. discriminate.
  - apply StrFacts.is_empty_false in H. rewrite H in R. discriminate.
  - apply StrFacts.is_empty_false in H1. rewrite H1 in R. discriminate.
Qed.

(** A manual refresh before any file was selected. *)
Lemma label_changes_only_by_a_parse_witness :
  label_text (self (run update_temperature started)) = "--"
  /\ file_path (self (run update_temperature started)) = ""
  /\ stdout (run update_temperature started) = [].
Proof.
  exact (label_changes_only_by_a_parse MenuUpdateTemperature started _
           eq_refl eq_refl).
Defined.

(** X12: the two style commands change nothing but the style: the path,
    the interval, the text on the label, the files, the standard output,
    the clock and the pending timers stay as they were. *)
Theorem style_commands_touch_style_only ev w w' :
  fire ev w = Some w' ->
  (exists acts, ev = MenuChangeFontSize acts)
  \/ (exists c, ev = MenuChangeBgColor c) ->
  file_path (self w') = file_path (self w)
  /\ update_interval (self w') = update_interval (self w)
  /\ label_text (self w') = label_text (self w)
  /\ fs w' = fs w /\ stdout w' = stdout w
  /\ clock w' = clock w /\ timers w' = timers w.
Proof.
  intros E K. apply fire_effect in E.
  destruct E; cbn; try (conjs; reflexivity);
    destruct K as [[x K]|[x K]]; discriminate.
Qed.

(** A font dialog and a colour dialog after a file was selected. *)
Lemma style_commands_touch_style_only_witness :
  timers (run (change_font_size [PressOk (Some 14)])
              (run (select_file "one.txt") started))
  = timers (run (select_file "one.txt") started)
  /\ label_text (self (run (change_bg_color (Some "black"))
                          (run (select_file "one.txt") started)))
     = label_text (self (run (select_file "one.txt") started)).
Proof.
  split.
  - apply (style_commands_touch_style_only
             (MenuChangeFontSize [PressOk (Some 14)])
             (run (select_file "one.txt") started) _ eq_refl).
    left. eexists. reflexivity.
  - apply (style_commands_touch_style_only
             (MenuChangeBgColor (Some "black"))
             (run (select_file "one.txt") started) _ eq_refl).
    right. eexists. reflexivity.
Defined.



(** X14: in every reachable world the label and the window have the same
    background, which is Tk's default or a non-empty colour that Tk knows;
    the stored colour is never empty. *)
Theorem backgrounds_agree w :
  reachable w ->
  label_bg (self w) = root_bg (self w)
  /\ (forall c, label_bg (self w) = Some c -> c <> "" /\ tk_color w c = true)
  /\ bg_color (self w) <> "".
Proof.
  revert w. apply reachable_ind.
  - intros files colors. cbn. conjs; [reflexivity|discriminate|discriminate].
  - intros ev w w' [I1 [I2 I3]] E. destruct E; cbn; auto.
    conjs; auto. intros c' [= <-]. auto.
Qed.

(** After the colour [black], which the sample Tk knows. *)
Lemma backgrounds_agree_witness :
  label_bg (self (run (change_bg_color (Some "black")) started))
  = root_bg (self (run (change_bg_color (Some "black")) started)).
Proof.
  apply (backgrounds_agree (run (change_bg_color (Some "black")) started)).
  apply (Scheduler.reachable_fire started (MenuChangeBgColor (Some "black"))).
  - apply Scheduler.reachable_started.
  - reflexivity.
Defined.

Lemma map_remove_nth {A B} (f : A -> B) (l : list A) : forall k,
  map f (remove_nth k l) = remove_nth k (map f l).
Proof.
  induction l as [|x l IH]; intros [|k]; cbn; try reflexivity.
  now rewrite IH.
Qed.

Lemma Forall_remove_nth {A} (P : A -> Prop) (l : list A) : forall k,
  Forall P l -> Forall P (remove_nth k l).
Proof.
  induction l as [|x l IH]; intros [|k] H; cbn; auto;
    inversion H; subst; auto.
Qed.

Lemma ascending_remove_nth l : forall k,
  ascending l -> ascending (remove_nth k l).
Proof.
  induction l as [|x l IH]; intros [|k] H; cbn; auto.
  - now destruct H.
  - destruct H as [H1 H2]. split; [now apply Forall_remove_nth|now apply IH].
Qed.

Lemma ascending_snoc l x :
  ascending l -> Forall (fun y => y <= x) l -> ascending (l ++ [x]).
Proof.
  induction l as [|y l IH]; intros H F; cbn.
  - split; [constructor|exact I].
  - destruct H as [H1 H2]. inversion F; subst. split.
    + apply Forall_app. split; [exact H1|]. constructor; [assumption|constructor].
    + now apply IH.
Qed.

(** X15: in every reachable world the pending timers stand in the order of
    their due times, and none is due later than one update interval
    (180000 ms) from now. *)
Theorem timers_are_ordered_and_near w :
  reachable w ->
  ascending (dues w)
  /\ Forall (fun due => due <= clock w + 180000) (dues w).
Proof.
  intros R.
  enough (H : update_interval (self w) = 180000
              /\ ascending (dues w)
              /\ Forall (fun due => due <= clock w + 180000) (dues w))
    by (destruct H as [_ H]; exact H).
  revert w R. apply reachable_ind.
  - intros files colors. cbn. conjs; [reflexivity|exact I|constructor].
  - intros ev w w' [I1 [I2 I3]] E. unfold dues in *.
    destruct E; cbn; rewrite ?map_app, ?map_remove_nth; cbn; auto.
    + rewrite I1. conjs; auto.
      * now apply ascending_snoc.
      * apply Forall_app. split; [exact I3|]. constructor; [lia|constructor].
    + rewrite I1. conjs; auto.
      * now apply ascending_snoc.
      * apply Forall_app. split; [exact I3|]. constructor; [lia|constructor].
    + rewrite I1. conjs; auto.
      * apply ascending_snoc.
        -- now apply ascending_remove_nth.
        -- now apply Forall_remove_nth.
      * apply Forall_app. split; [now apply Forall_remove_nth|].
        constructor; [lia|constructor].
    + conjs; auto.
      * now apply ascending_remove_nth.
      * now apply Forall_remove_nth.
    + conjs; auto. eapply Forall_impl; [|exact I3]. cbn. intros; lia.
Qed.

(** Two selections one second apart. *)
Lemma timers_are_ordered_and_near_witness :
  ascending (dues (run (select_file "two.txt")
                       (advance 1000 (run (select_file "one.txt") started)))).
Proof.
  apply (timers_are_ordered_and_near
           (run (select_file "two.txt")
                (advance 1000 (run (select_file "one.txt") started)))).
  apply (Scheduler.reachable_fire
           (advance 1000 (run (select_file "one.txt") started))
           (MenuSelectFile "two.txt")); [|reflexivity].
  apply (Scheduler.reachable_fire (run (select_file "one.txt") started)
           (TimePasses 1000)); [|reflexivity].
  apply (Scheduler.reachable_fire started (MenuSelectFile "one.txt"));
    [|reflexivity].
  apply Scheduler.reachable_started.
Defined.

End Loop.

(** ** The style commands in detail *)

Module StyleMore.
Import PyStr PyFloat Py App Obs Extra Steps.

(** X16: [change_bg_color] stores the colour before Tk has checked it.
    With a non-empty colour that Tk knows the call returns, and the stored
    colour, the label background and the window background are that
    colour.  With a non-empty colour that Tk does not know the call raises
    [TclError] out of the first [config]; the stored colour is the new one
    all the same, while label and window keep their backgrounds. *)
Theorem change_bg_color_stores_before_tk_checks w c :
  c <> "" ->
  let r := fst (change_bg_color (Some c) w) in
  let w' := run (change_bg_color (Some c)) w in
  (tk_color w c = true ->
   r = Ok tt /\ bg_color (self w') = c
   /\ label_bg (self w') = Some c /\ root_bg (self w') = Some c)
  /\ (tk_color w c = false ->
      (exists e, r = Raise e /\ exn_class e = TclError)
      /\ bg_color (self w') = c
      /\ label_bg (self w') = label_bg (self w)
      /\ root_bg (self w') = root_bg (self w)).
Proof.
  intros Hc. cbv zeta. unfold run. rewrite Loop.change_bg_color_run.
  rewrite (proj2 (StrFacts.is_empty_false c) Hc).
  split; intros Hk; rewrite Hk; cbn.
  - conjs; reflexivity.
  - conjs; try reflexivity. eexists. split; reflexivity.
Qed.

(** The sample Tk knows [black] and does not know [blak]. *)
Lemma change_bg_color_stores_before_tk_checks_witness :
  (label_bg (self (run (change_bg_color (Some "black")) started)) = Some "black"
   /\ root_bg (self (run (change_bg_color (Some "black")) started)) = Some "black")
  /\ (bg_color (self (run (change_bg_color (Some "blak")) started)) = "blak"
      /\ label_bg (self (run (change_bg_color (Some "blak")) started)) = None).
Proof.
  assert (N1 : "black" <> "") by discriminate.
  assert (N2 : "blak" <> "") by discriminate.
  split.
  - destruct (proj1 (change_bg_color_stores_before_tk_checks started "black" N1)
                    eq_refl) as [_ [_ [H1 H2]]].
    split; assumption.
  - destruct (proj2 (change_bg_color_stores_before_tk_checks started "blak" N2)
                    eq_refl) as [_ [H1 [H2 _]]].
    split; assumption.
Defined.




End StyleMore.

(** ** Edge cases of the parse and of the display *)

Module Edge.
Import PyStr PyFloat Py App Obs Extra Steps.

(** X18: [read_latest_temperature] returns a float exactly when the file
    can be read, has at least one line, its stripped last line splits on
    the semicolon into three fields and [float] accepts the third; the
    float returned is that of the third field. *)
Theorem success_characterised file w x :
  fst (read_latest_temperature file w) = Ok (Some x)
  <-> exists text,
        fs w file = Contents text /\ readlines text <> []
        /\ List.length (split ";" (strip (last (readlines text) ""))) = 3%nat
        /\ float_of_str (nth 2 (split ";" (strip (last (readlines text) ""))) "")
           = Some x.
Proof.
  rewrite Parser.read_latest_temperature_run. cbn [fst]. split.
  - destruct (fs w file) as [e|e|text] eqn:Hn; cbn [outcome fst];
      try discriminate.
    unfold parse_text. destruct (readlines text) as [|l ls] eqn:Hl;
      [discriminate|]. cbv zeta.
    destruct (Nat.eqb_spec
                (List.length (split ";" (strip (last (l :: ls) "")))) 3)
      as [E|E]; [|discriminate].
    destruct (float_of_str _) as [y|] eqn:Hf; [|discriminate].
    cbn [fst]. intros [= <-]. exists text. rewrite Hl. conjs; auto.
    discriminate.
  - intros [text [H [Hl [Hn Hf]]]]. rewrite H. cbn [outcome].
    rewrite (Parser.parse_text_fields _ Hl). cbv zeta.
    apply Nat.eqb_eq in Hn. now rewrite Hn, Hf.
Qed.

(** The success on [one.txt] read backwards: its text has the three
    fields. *)
Lemma success_characterised_witness :
  exists text,
    fs started "one.txt" = Contents text /\ readlines text <> []
    /\ List.length (split ";" (strip (last (readlines text) ""))) = 3%nat
    /\ float_of_str (nth 2 (split ";" (strip (last (readlines text) ""))) "")
       = Some (S754_finite false 6946802425218990 (-49)).
Proof.
  apply (proj1 (success_characterised "one.txt" started
                  (S754_finite false 6946802425218990 (-49)))).
  reflexivity.
Defined.

(** X19: a reading that is an infinity or a NaN is not refused: after
    [update_temperature] read such a float the label shows [inf], [-inf]
    or [nan], no error box is added and the timer is re-armed as after any
    other reading. *)
Theorem non_finite_readings_are_displayed w x :
  file_path (self w) <> "" ->
  fst (read_latest_temperature (file_path (self w)) w) = Ok (Some x) ->
  is_finite x = false ->
  let w' := run update_temperature w in
  label_text (self w')
  = match x with
    | S754_infinity true => "-inf"
    | S754_infinity false => "inf"
    | _ => "nan"
    end
  /\ boxes w' = boxes w
  /\ armed w' = S (armed w).
Proof.
  intros Hp Hr Hf. cbv zeta. unfold run. rewrite (update_temperature_run _ Hp).
  rewrite Parser.read_latest_temperature_run in Hr. cbn [fst] in Hr.
  injection Hr as Hr. unfold refreshed, armed. rewrite Hr. cbn.
  rewrite length_app. cbn.
  destruct x as [s|[|]| |s m e]; try discriminate; conjs; try reflexivity; lia.
Qed.

(** A log whose last reading is [nan], and one whose last reading
    overflows the doubles. *)
Lemma non_finite_readings_are_displayed_witness :
  label_text (self (run update_temperature
     (with_files (fun _ => Contents "a;b;nan") (chosen "log.txt")))) = "nan"
  /\ label_text (self (run update_temperature
        (with_files (fun _ => Contents "a;b;-1e999") (chosen "log.txt")))) = "-inf".
Proof.
  assert (P : file_path (self (chosen "log.txt")) <> "") by (simpl; discriminate).
  split.
  - apply (non_finite_readings_are_displayed
             (with_files (fun _ => Contents "a;b;nan") (chosen "log.txt"))
             S754_nan P); reflexivity.
  - apply (non_finite_readings_are_displayed
             (with_files (fun _ => Contents "a;b;-1e999") (chosen "log.txt"))
             (S754_infinity true) P); reflexivity.
Defined.

Lemma all_space_nobreak_strip s :
  all_space s = true -> strip s = "".
Proof.
  intros H. unfold strip, strip_by.
  assert (E : lstrip_by isspace s = "").
  { induction s as [|c s IH]; [reflexivity|]. cbn in *.
    apply andb_true_iff in H as [Hc Hs]. rewrite Hc. now apply IH. }
  now rewrite E.
Qed.

Lemma all_space_app a b : all_space (a ++ b) = all_space a && all_space b.
Proof.
  induction a as [|c a IH]; cbn; [reflexivity|]. now rewrite IH, andb_assoc.
Qed.

(** X20: a blank line at the end hides the readings before it: when the
    text after the last line feed is white space only (and not empty), or
    the file ends in an empty line, the parse fails with [No valid lines
    found in the file.] whatever the earlier lines hold. *)
Theorem trailing_blank_line_fails file w before blank tail :
  all_space blank = true -> nobreak blank = true ->
  (blank <> "" /\ tail = "") \/ tail = NL ->
  fs w file = Contents (before ++ NL ++ blank ++ tail) ->
  read_latest_temperature file w
  = (Ok None, emit ["No valid lines found in the file."] w).
Proof.
  intros Hs Hb Ht H.
  assert (L : universal_newlines (blank ++ tail) = blank ++ tail
              /\ lines_keepends (blank ++ tail) = [blank ++ tail]
              /\ all_space (blank ++ tail) = true).
  { destruct Ht as [[Hne ->] | ->].
    - rewrite Lines.append_nil_r.
      destruct (StrFacts.one_line blank Hb Hne). auto.
    - destruct (StrFacts.one_line_LF blank Hb). conjs; auto.
      now rewrite all_space_app, Hs. }
  destruct L as [Hu [Hk Ha]].
  destruct (StrFacts.readlines_last before _ Hu Hk) as [N E].
  rewrite Parser.read_latest_temperature_run, H. cbn [outcome].
  change (before ++ NL ++ blank ++ tail)
    with (before ++ String LF (blank ++ tail)).
  rewrite (Parser.parse_text_fields _ N). cbv zeta.
  rewrite E, (all_space_nobreak_strip _ Ha). reflexivity.
Qed.

(** The reading of [one.txt] followed by a line of two blanks, and by an
    empty line. *)
Lemma trailing_blank_line_fails_witness :
  read_latest_temperature "log.txt"
    (with_files (fun _ => Contents ("a;b;12.34" ++ NL ++ "  ")) started)
  = (Ok None,
     emit ["No valid lines found in the file."]
       (with_files (fun _ => Contents ("a;b;12.34" ++ NL ++ "  ")) started))
  /\ read_latest_temperature "log.txt"
       (with_files (fun _ => Contents ("a;b;12.34" ++ NL ++ NL)) started)
     = (Ok None,
        emit ["No valid lines found in the file."]
          (with_files (fun _ => Contents ("a;b;12.34" ++ NL ++ NL)) started)).
Proof.
  split.
  - apply (trailing_blank_line_fails "log.txt"
             (with_files (fun _ => Contents ("a;b;12.34" ++ NL ++ "  ")) started)
             "a;b;12.34" "  " "").
    + reflexivity.
    + reflexivity.
    + left. split; [discriminate|reflexivity].
    + reflexivity.
  - apply (trailing_blank_line_fails "log.txt"
             (with_files (fun _ => Contents ("a;b;12.34" ++ NL ++ NL)) started)
             "a;b;12.34" "" NL).
    + reflexivity.
    + reflexivity.
    + right; reflexivity.
    + reflexivity.
Defined.

End Edge.
